(** * kustomize-controller: reconciler and sync-at predicate

    A shallow embedding of package [controllers]:
    - [KustomizationSyncAtPredicate.Update] (kustomization_predicate.go);
    - [KustomizationReconciler.Reconcile] and [KustomizationReconciler.sync]
      (the reconciler source, which follows the manifest in
      config/manager/deployment.yaml).

    Go packages are rendered as modules ([metav1], [types], [context], ...),
    Go values as records, [error] as [option error], [int64] and
    [time.Duration] as [Z].  Calls that leave the process (API client, clock,
    temporary directories, sub-processes, logging) are actions of a state
    monad over a [World]; what the outside answers is given by oracles that
    may look at the whole history. *)

From stdpp Require Import base strings list gmap.
From Stdlib Require Import ZArith.

Local Open Scope Z_scope.
Local Open Scope string_scope.
Local Open Scope list_scope.

(** ** Go runtime values *)

(** The [error] interface, as far as the controller observes it: the text of
    [Error()] and whether [apierrors.IsNotFound] holds of it. *)
Record error := mkError { Error : string; IsNotFound : bool }.

Module errors.
Definition New (text : string) : error :=
  {| Error := text; IsNotFound := false |}.
End errors.

Module fmt.
(** [fmt.Errorf(prefix + "%w", err)]: the text is the prefix followed by
    the text of the wrapped error.  The wrapper is not itself an API status
    error, and [apierrors.IsNotFound] does not look inside it. *)
Definition Errorf_w (prefix : string) (err : error) : error :=
  {| Error := prefix +:+ Error err; IsNotFound := false |}.
(** [fmt.Errorf] with [%s] verbs only: the formatted text. *)
Definition Errorf (text : string) : error := errors.New text.
End fmt.

Module strings.
(** [strings.Contains(s, substr)]. *)
Definition Contains (s substr : string) : bool :=
  match String.index 0 substr s with Some _ => true | None => false end.
End strings.

Module time.
Definition Duration := Z.
Definition Nanosecond : Duration := 1.
Definition Microsecond : Duration := 1000 * Nanosecond.
Definition Millisecond : Duration := 1000 * Microsecond.
Definition Second : Duration := 1000 * Millisecond.
End time.

Module context.
(** A context is observed through its deadline (nanoseconds on the clock
    of [time.Now]); [Background] has none. *)
Record Context := { Deadline : option Z }.
Definition Background : Context := {| Deadline := None |}.
(** [context.WithTimeout(parent, timeout)] called when the clock reads
    [now]: the child expires at [now + timeout], or with its parent when
    that is earlier. *)
Definition WithTimeout (parent : Context) (timeout : time.Duration) (now : Z)
  : Context :=
  let d := now + timeout in
  {| Deadline := Some (match Deadline parent with
                       | Some p => Z.min p d
                       | None => d
                       end) |}.
#[global] Instance Context_eq_dec : EqDecision Context.
Proof. solve_decision. Defined.
End context.

(** ** Kubernetes object model *)

Module metav1.
(** The part of [metav1.ObjectMeta] (and of the [metav1.Object] accessors)
    the controller reads. *)
Record ObjectMeta := {
  Name : string;
  Namespace : string;
  Generation : Z;
  Annotations : gmap string string;
}.
Definition GetName (m : ObjectMeta) : string := Name m.
Definition GetNamespace (m : ObjectMeta) : string := Namespace m.
Definition GetGeneration (m : ObjectMeta) : Z := Generation m.
Definition GetAnnotations (m : ObjectMeta) : gmap string string :=
  Annotations m.
End metav1.

Module types.
Record NamespacedName := { Namespace : string; Name : string }.
(** [NamespacedName.String()]. *)
Definition String (n : NamespacedName) : string :=
  Namespace n +:+ "/" +:+ Name n.
End types.

Module event.
(** [event.UpdateEvent]; [MetaOld] and [MetaNew] are interface values and
    may be nil. *)
Record UpdateEvent := {
  MetaOld : option metav1.ObjectMeta;
  MetaNew : option metav1.ObjectMeta;
}.
End event.

Module ctrl.
Record Request := { NamespacedName : types.NamespacedName }.
Record Result := { Requeue : bool; RequeueAfter : time.Duration }.
(** The zero value [ctrl.Result{}]. *)
Definition Result0 : Result := {| Requeue := false; RequeueAfter := 0 |}.
End ctrl.

Module sourcev1.
Record Artifact := { URL : string }.
Record GitRepositoryStatus := { Artifact_ : option Artifact }.
Record GitRepository := {
  ObjectMeta : metav1.ObjectMeta;
  Status : GitRepositoryStatus;
}.
Definition GetName (g : GitRepository) : string :=
  metav1.GetName (ObjectMeta g).
End sourcev1.

Module kustomizev1.
Record LocalObjectReference := { Name : string }.
Record KustomizationSpec := {
  Path : string;
  Prune : string;
  Interval : time.Duration;
  GitRepositoryRef : LocalObjectReference;
}.

(** Modelled from the spec: the status types of api/v1alpha1 are not among
    the sources.  The data model gives a Kustomization a status condition
    that is Ready or NotReady and carries a Reason and a Message. *)
Inductive Readiness := Ready | NotReady.
Record Condition := {
  State : Readiness;
  Reason : string;
  Message : string;
}.
Record KustomizationStatus := { Conditions : list Condition }.

Record Kustomization := {
  Kind : string;
  ObjectMeta : metav1.ObjectMeta;
  Spec : KustomizationSpec;
  Status : KustomizationStatus;
}.
Definition GetName (k : Kustomization) : string :=
  metav1.GetName (ObjectMeta k).
Definition GetNamespace (k : Kustomization) : string :=
  metav1.GetNamespace (ObjectMeta k).
(** Records are values: a deep copy is the value itself. *)
Definition DeepCopy (k : Kustomization) : Kustomization := k.

Definition with_condition (k : Kustomization) (c : Condition)
  : Kustomization :=
  {| Kind := Kind k; ObjectMeta := ObjectMeta k; Spec := Spec k;
     Status := {| Conditions := [c] |} |}.

(** Modelled from the spec: [KustomizationReady] of api/v1alpha1 is not
    among the sources.  It returns the object with its status condition
    set to Ready with the given reason and message. *)
Definition KustomizationReady (k : Kustomization) (reason message : string)
  : Kustomization :=
  with_condition k
    {| State := Ready; Reason := reason; Message := message |}.

(** Modelled from the spec: [KustomizationNotReady] of api/v1alpha1 is not
    among the sources.  It returns the object with its status condition
    set to NotReady with the given reason and message. *)
Definition KustomizationNotReady (k : Kustomization)
    (reason message : string) : Kustomization :=
  with_condition k
    {| State := NotReady; Reason := reason; Message := message |}.
End kustomizev1.

(** The constants and the one helper of the API packages whose definitions
    are not among the sources; the controller is parametric in them. *)
Class ApiConstants := {
  ApplySucceedReason : string;
  ApplyFailedReason : string;
  BuildFailedReason : string;
  ArtifactFailedReason : string;
  StorageOperationFailedReason : string;
  SyncAtAnnotation : string;
  KustomizationReadyMessage : kustomizev1.Kustomization → string;
}.

(** ** kustomization_predicate.go *)

Section predicate.
Context `{ApiConstants}.

Definition Update (e : event.UpdateEvent) : bool :=
  match event.MetaOld e, event.MetaNew e with
  | Some MetaOld, Some MetaNew =>
    if negb (metav1.GetGeneration MetaNew =? metav1.GetGeneration MetaOld)%Z
    then true
    else
      match metav1.GetAnnotations MetaNew !! SyncAtAnnotation with
      | Some val =>
        match metav1.GetAnnotations MetaOld !! SyncAtAnnotation with
        | Some valOld => if negb (String.eqb val valOld) then true else false
        | None => true
        end
      | None => false
      end
  | _, _ => false
  end.
End predicate.


(** ** The world outside the process *)

(** What the reconciler does to the outside, in program order. *)
Inductive Event :=
| EvGetKustomization (ctx : context.Context) (key : types.NamespacedName)
| EvGetGitRepository (ctx : context.Context) (key : types.NamespacedName)
| EvStatusUpdate (ctx : context.Context) (obj : kustomizev1.Kustomization)
| EvTempDir (dir pattern : string)
| EvRemoveAll (path : string)
| EvCommand (ctx : context.Context) (name : string) (arg : list string)
| EvPrintln (line : string)
| EvLogError (values : list (string * string)) (err : error) (msg : string)
    (keysAndValues : list (string * string))
| EvLogInfo (values : list (string * string)) (msg : string)
    (keysAndValues : list (string * string))
| EvCancel (ctx : context.Context).

(** The directories present on the local disk, and the history so far
    (oldest event first). *)
Record World := { dirs : list string; events : list Event }.

Definition record (ev : Event) (w : World) : World :=
  {| dirs := dirs w; events := events w ++ [ev] |}.

(** The context an event was issued under, for the calls that take one. *)
Definition event_ctx (ev : Event) : option context.Context :=
  match ev with
  | EvGetKustomization ctx _ | EvGetGitRepository ctx _
  | EvStatusUpdate ctx _ | EvCommand ctx _ _ | EvCancel ctx => Some ctx
  | _ => None
  end.

Definition is_command (ev : Event) : bool :=
  match ev with EvCommand _ _ _ => true | _ => false end.

Definition is_status_update (ev : Event) : bool :=
  match ev with EvStatusUpdate _ _ => true | _ => false end.

(** [client.Client], as [Reconcile] uses it.  Each answer may depend on the
    world at the time of the call. *)
Record Client := {
  client_Get_Kustomization :
    World → context.Context → types.NamespacedName →
    error + kustomizev1.Kustomization;
  client_Get_GitRepository :
    World → context.Context → types.NamespacedName →
    error + sourcev1.GitRepository;
  client_Status_Update :
    World → context.Context → kustomizev1.Kustomization → option error;
}.

(** [logr.Logger]: the key/value pairs attached by [WithValues]. *)
Record Logger := { values : list (string * string) }.

Definition WithValues (l : Logger) (key value : string) : Logger :=
  {| values := values l ++ [(key, value)] |}.

Record KustomizationReconciler := { Client_ : Client; Log : Logger }.

(** The result of running a sub-process to completion: what it left on the
    disk, its combined output, and the error of [CombinedOutput] (non-zero
    exit, or the context expiring). *)
Record Completed := {
  disk : list string;
  output : string;
  failure : option error;
}.

(** The host the controller runs on: clock, temporary directories,
    sub-processes and removal of file trees.  [host_RemoveAll w path] is
    [None] when the removal goes through, and otherwise the error of
    [os.RemoveAll] together with what is left on the disk (it removes what
    it can). *)
Record Host := {
  host_Now : World → Z;
  host_TempDir : World → string → string → error + string;
  host_Run : World → context.Context → string → list string → Completed;
  host_RemoveAll : World → string → option (error * list string);
}.

(** ** Effects *)

Definition M (A : Type) : Type := World → A * World.

#[global] Instance M_ret : MRet M := λ A a w, (a, w).
#[global] Instance M_bind : MBind M :=
  λ A B f m w, let '(a, w') := m w in f a w'.

(** [defer cleanup] at the head of [body]: [cleanup] runs once the body has
    computed what it returns, and what [cleanup] returns is discarded. *)
Definition defer {A B} (cleanup : M B) (body : M A) : M A :=
  a ← body; cleanup;; mret a.

(** [within root p]: [p] is [root] or lies below it. *)
Definition within (root p : string) : bool :=
  String.eqb p root || String.prefix (root +:+ "/") p.

(** [os.RemoveAll(path)]: when it returns nil, [path] and everything below
    it is gone; when it returns an error, the disk is as the host left
    it. *)
Definition os_RemoveAll (host : Host) (path : string) : M (option error) :=
  λ w, let res := host_RemoveAll host w path in
       (fst <$> res,
        {| dirs := match res with
                   | None => List.filter (λ p, negb (within path p)) (dirs w)
                   | Some (_, remaining) => remaining
                   end;
           events := events w ++ [EvRemoveAll path] |}).

(** [fmt.Println(line)]. *)
Definition fmt_Println (line : string) : M unit :=
  λ w, (tt, record (EvPrintln line) w).

(** [cancel()] of the context made by [context.WithTimeout]. *)
Definition cancel (ctx : context.Context) : M unit :=
  λ w, (tt, record (EvCancel ctx) w).

Definition log_Error (log : Logger) (err : error) (msg : string)
    (keysAndValues : list (string * string)) : M unit :=
  λ w, (tt, record (EvLogError (values log) err msg keysAndValues) w).

Definition log_Info (log : Logger) (msg : string)
    (keysAndValues : list (string * string)) : M unit :=
  λ w, (tt, record (EvLogInfo (values log) msg keysAndValues) w).

(** [r.Get(ctx, key, &kustomization)]. *)
Definition Get_Kustomization (r : KustomizationReconciler)
    (ctx : context.Context) (key : types.NamespacedName)
  : M (error + kustomizev1.Kustomization) :=
  λ w, (client_Get_Kustomization (Client_ r) w ctx key,
        record (EvGetKustomization ctx key) w).

(** [r.Client.Get(ctx, key, &repository)]. *)
Definition Get_GitRepository (r : KustomizationReconciler)
    (ctx : context.Context) (key : types.NamespacedName)
  : M (error + sourcev1.GitRepository) :=
  λ w, (client_Get_GitRepository (Client_ r) w ctx key,
        record (EvGetGitRepository ctx key) w).

(** [r.Status().Update(ctx, &obj)]. *)
Definition Status_Update (r : KustomizationReconciler)
    (ctx : context.Context) (obj : kustomizev1.Kustomization)
  : M (option error) :=
  λ w, (client_Status_Update (Client_ r) w ctx obj,
        record (EvStatusUpdate ctx obj) w).

(** [client.IgnoreNotFound(err)]. *)
Definition IgnoreNotFound (err : error) : option error :=
  if IsNotFound err then None else Some err.

Section controller.
Context `{ApiConstants}.
Variable host : Host.

(** [time.Now()], read by [context.WithTimeout]. *)
Definition time_Now : M Z := λ w, (host_Now host w, w).

(** [ioutil.TempDir(dir, pattern)]: on success the new directory exists. *)
Definition ioutil_TempDir (dir pattern : string) : M (error + string) :=
  λ w, match host_TempDir host w dir pattern with
       | inl err => (inl err, record (EvTempDir dir pattern) w)
       | inr tmpDir =>
         (inr tmpDir, {| dirs := tmpDir :: dirs w;
                         events := events w ++ [EvTempDir dir pattern] |})
       end.

(** [exec.CommandContext(ctx, name, arg...).CombinedOutput()]. *)
Definition exec_CombinedOutput (ctx : context.Context) (name : string)
    (arg : list string) : M (string * option error) :=
  λ w, let c := host_Run host w ctx name arg in
       ((output c, failure c),
        {| dirs := disk c; events := events w ++ [EvCommand ctx name arg] |}).

(** ** The reconciler *)

Definition sync (r : KustomizationReconciler) (ctx : context.Context)
    (kustomization : kustomizev1.Kustomization)
    (repository : sourcev1.GitRepository)
  : M (kustomizev1.Kustomization * option error) :=
  let artifact_not_found : M (kustomizev1.Kustomization * option error) :=
    let err := fmt.Errorf ("artifact not found in " +:+
                           sourcev1.GetName repository) in
    mret (kustomizev1.KustomizationNotReady kustomization
            ArtifactFailedReason (Error err), Some err) in
  match sourcev1.Artifact_ (sourcev1.Status repository) with
  | None => artifact_not_found
  | Some artifact =>
    if String.eqb (sourcev1.URL artifact) "" then artifact_not_found else
    (* create tmp dir *)
    t ← ioutil_TempDir "" (metav1.Name (sourcev1.ObjectMeta repository));
    match t with
    | inl err =>
      let err := fmt.Errorf_w "tmp dir error: " err in
      mret (kustomizev1.KustomizationNotReady kustomization
              StorageOperationFailedReason (Error err), Some err)
    | inr tmpDir =>
      defer (os_RemoveAll host tmpDir) (
        (* download artifact and extract files *)
        let url := sourcev1.URL artifact in
        let cmd := "cd " +:+ tmpDir +:+ " && curl -sL " +:+ url +:+
                   " | tar -xz --strip-components=1 -C ." in
        '(output, err) ← exec_CombinedOutput ctx "/bin/sh" ["-c"; cmd];
        match err with
        | Some err =>
          let err := fmt.Errorf_w "artifact acquisition failed: " err in
          mret (kustomizev1.KustomizationNotReady kustomization
                  ArtifactFailedReason (Error err),
                Some (fmt.Errorf ("artifact download `" +:+ url +:+
                                  "` error: " +:+ output)))
        | None =>
          (* kustomize build *)
          let buildDir := kustomizev1.Path (kustomizev1.Spec kustomization) in
          let cmd := "cd " +:+ tmpDir +:+ " && kustomize build " +:+
                     buildDir +:+ " > " +:+
                     kustomizev1.GetName kustomization +:+ ".yaml" in
          '(output, err) ← exec_CombinedOutput ctx "/bin/sh" ["-c"; cmd];
          match err with
          | Some err =>
            let err := fmt.Errorf_w "kustomize build error: " err in
            fmt_Println output;;
            mret (kustomizev1.KustomizationNotReady kustomization
                    BuildFailedReason (Error err),
                  Some (fmt.Errorf ("kustomize build error: " +:+ output)))
          | None =>
            (* apply kustomization *)
            let cmd := "cd " +:+ tmpDir +:+ " && kubectl apply -f " +:+
                       kustomizev1.GetName kustomization +:+ ".yaml" in
            let cmd :=
              if negb (String.eqb
                         (kustomizev1.Prune (kustomizev1.Spec kustomization))
                         "")
              then "cd " +:+ tmpDir +:+ " && kubectl apply -f " +:+
                   kustomizev1.GetName kustomization +:+
                   ".yaml --prune -l " +:+
                   kustomizev1.Prune (kustomizev1.Spec kustomization)
              else cmd in
            '(output, err) ← exec_CombinedOutput ctx "/bin/sh" ["-c"; cmd];
            match err with
            | Some err =>
              let err := fmt.Errorf_w "kubectl apply error: " err in
              mret (kustomizev1.KustomizationNotReady kustomization
                      ApplyFailedReason (Error err),
                    Some (fmt.Errorf ("kubectl apply: " +:+ output)))
            | None =>
              (* log apply output *)
              fmt_Println output;;
              mret (kustomizev1.KustomizationReady kustomization
                      ApplySucceedReason
                      "kustomization was successfully applied", None)
            end
          end
        end)
    end
  end.

Definition Reconcile (r : KustomizationReconciler) (req : ctrl.Request)
  : M (ctrl.Result * option error) :=
  now ← time_Now;
  let ctx := context.WithTimeout context.Background (15 * time.Second) now in
  defer (cancel ctx) (
    g ← Get_Kustomization r ctx (ctrl.NamespacedName req);
    match g with
    | inl err => mret (ctrl.Result0, IgnoreNotFound err)
    | inr kustomization =>
      let log := WithValues (Log r) (kustomizev1.Kind kustomization)
                   (types.String (ctrl.NamespacedName req)) in
      (* get artifact source *)
      let repositoryName :=
        {| types.Namespace := kustomizev1.GetNamespace kustomization;
           types.Name := kustomizev1.Name
                           (kustomizev1.GitRepositoryRef
                              (kustomizev1.Spec kustomization)) |} in
      g ← Get_GitRepository r ctx repositoryName;
      match g with
      | inl err =>
        log_Error log err "GitRepository not found"
          [("gitrepository", types.String repositoryName)];;
        mret ({| ctrl.Requeue := true; ctrl.RequeueAfter := 0 |}, Some err)
      | inr repository =>
        (* try git sync *)
        '(syncedKustomization, err) ←
          sync r ctx (kustomizev1.DeepCopy kustomization) repository;
        match err with
        | Some err => log_Error log err "Kustomization sync failed" []
        | None => mret tt
        end;;
        (* update status *)
        u ← Status_Update r ctx syncedKustomization;
        match u with
        | Some err =>
          log_Error log err "unable to update Kustomization status" [];;
          mret ({| ctrl.Requeue := true; ctrl.RequeueAfter := 0 |}, Some err)
        | None =>
          log_Info log "Kustomization sync finished"
            [("msg", KustomizationReadyMessage syncedKustomization)];;
          (* requeue kustomization *)
          mret ({| ctrl.Requeue := false;
                   ctrl.RequeueAfter :=
                     kustomizev1.Interval (kustomizev1.Spec kustomization) |},
                None)
        end
      end
    end).

End controller.

(** ** The stages of a sync attempt *)

Section stages.
Context `{ApiConstants}.
Variable host : Host.

(** The shell commands of the three external steps, as [sync] formats
    them. *)
Definition fetch_cmd (tmpDir url : string) : string :=
  "cd " +:+ tmpDir +:+ " && curl -sL " +:+ url +:+
  " | tar -xz --strip-components=1 -C .".

Definition build_cmd (tmpDir : string) (k : kustomizev1.Kustomization)
  : string :=
  "cd " +:+ tmpDir +:+ " && kustomize build " +:+
  kustomizev1.Path (kustomizev1.Spec k) +:+ " > " +:+
  kustomizev1.GetName k +:+ ".yaml".

(** The apply command without any pruning. *)
Definition apply_cmd (tmpDir : string) (k : kustomizev1.Kustomization)
  : string :=
  "cd " +:+ tmpDir +:+ " && kubectl apply -f " +:+
  kustomizev1.GetName k +:+ ".yaml".

(** The apply command with pruning scoped to the selector of [k]. *)
Definition apply_prune_cmd (tmpDir : string) (k : kustomizev1.Kustomization)
  : string :=
  "cd " +:+ tmpDir +:+ " && kubectl apply -f " +:+
  kustomizev1.GetName k +:+ ".yaml" +:+ " --prune -l " +:+
  kustomizev1.Prune (kustomizev1.Spec k).

Definition sh (ctx : context.Context) (cmd : string)
  : M (string * option error) :=
  exec_CombinedOutput host ctx "/bin/sh" ["-c"; cmd].

(** The workspace request of an attempt on [repository]. *)
Definition workspace (repository : sourcev1.GitRepository)
  : M (error + string) :=
  ioutil_TempDir host "" (sourcev1.GetName repository).

(** The address of the artifact of a source object, when it has one. *)
Definition artifact_url (repository : sourcev1.GitRepository)
  : option string :=
  match sourcev1.Artifact_ (sourcev1.Status repository) with
  | Some a => if String.eqb (sourcev1.URL a) "" then None
              else Some (sourcev1.URL a)
  | None => None
  end.

(** The outcome of one attempt (SyncResult of the data model, with the
    workspace failure kept apart from the fetch failure): success, or the
    stage that failed together with what it failed on. *)
Inductive SyncResult :=
| Succeeded
| ArtifactMissing (source : string)
| WorkspaceFailed (cause : error)
| FetchFailed (cause : error)
| RenderFailed (cause : error)
| ApplyFailed (cause : error).

(** The stage at which an attempt ended; [None] for success. *)
Inductive Stage := Resolve | Acquire | Fetch | Render | Apply.

Definition failed_stage (res : SyncResult) : option Stage :=
  match res with
  | Succeeded => None
  | ArtifactMissing _ => Some Resolve
  | WorkspaceFailed _ => Some Acquire
  | FetchFailed _ => Some Fetch
  | RenderFailed _ => Some Render
  | ApplyFailed _ => Some Apply
  end.

(** The outcome of the attempt that starts in world [w], read off the
    answers of the host: the first step that fails decides. *)
Definition attempt_result (ctx : context.Context)
    (k : kustomizev1.Kustomization) (repository : sourcev1.GitRepository)
    (w : World) : SyncResult :=
  match artifact_url repository with
  | None => ArtifactMissing (sourcev1.GetName repository)
  | Some url =>
    match workspace repository w with
    | (inl e, _) => WorkspaceFailed e
    | (inr tmpDir, w1) =>
      match sh ctx (fetch_cmd tmpDir url) w1 with
      | ((_, Some e), _) => FetchFailed e
      | ((_, None), w2) =>
        match sh ctx (build_cmd tmpDir k) w2 with
        | ((_, Some e), _) => RenderFailed e
        | ((_, None), w3) =>
          let cmd :=
            if String.eqb (kustomizev1.Prune (kustomizev1.Spec k)) ""
            then apply_cmd tmpDir k
            else apply_prune_cmd tmpDir k in
          match sh ctx cmd w3 with
          | ((_, Some e), _) => ApplyFailed e
          | ((_, None), _) => Succeeded
          end
        end
      end
    end
  end.

(** The status condition each outcome is reported as. *)
Definition StatusReporter (res : SyncResult) : kustomizev1.Condition :=
  match res with
  | Succeeded =>
    {| kustomizev1.State := kustomizev1.Ready;
       kustomizev1.Reason := ApplySucceedReason;
       kustomizev1.Message := "kustomization was successfully applied" |}
  | ArtifactMissing source =>
    {| kustomizev1.State := kustomizev1.NotReady;
       kustomizev1.Reason := ArtifactFailedReason;
       kustomizev1.Message := "artifact not found in " +:+ source |}
  | WorkspaceFailed e =>
    {| kustomizev1.State := kustomizev1.NotReady;
       kustomizev1.Reason := StorageOperationFailedReason;
       kustomizev1.Message := "tmp dir error: " +:+ Error e |}
  | FetchFailed e =>
    {| kustomizev1.State := kustomizev1.NotReady;
       kustomizev1.Reason := ArtifactFailedReason;
       kustomizev1.Message := "artifact acquisition failed: " +:+ Error e |}
  | RenderFailed e =>
    {| kustomizev1.State := kustomizev1.NotReady;
       kustomizev1.Reason := BuildFailedReason;
       kustomizev1.Message := "kustomize build error: " +:+ Error e |}
  | ApplyFailed e =>
    {| kustomizev1.State := kustomizev1.NotReady;
       kustomizev1.Reason := ApplyFailedReason;
       kustomizev1.Message := "kubectl apply error: " +:+ Error e |}
  end.

End stages.

(** The key under which [Reconcile] looks up the source of [k]. *)
Definition repositoryName (k : kustomizev1.Kustomization)
  : types.NamespacedName :=
  {| types.Namespace := kustomizev1.GetNamespace k;
     types.Name := kustomizev1.Name
                     (kustomizev1.GitRepositoryRef (kustomizev1.Spec k)) |}.

(** The status condition an attempt leaves on the object it returns. *)
Definition condition_of (k : kustomizev1.Kustomization)
  : option kustomizev1.Condition :=
  head (kustomizev1.Conditions (kustomizev1.Status k)).

(** ** Trace properties *)

(** [emits P m]: whatever the world, running [m] only appends events, and
    each appended event satisfies [P]. *)
Definition emits {A} (P : Event → Prop) (m : M A) : Prop :=
  ∀ w, ∃ tr, events (m w).2 = events w ++ tr ∧ Forall P tr.

(** An event is under [ctx] when it takes no context or takes [ctx]. *)
Definition under (ctx : context.Context) (ev : Event) : Prop :=
  ∀ c, event_ctx ev = Some c → c = ctx.

(** ** Concrete objects and environments *)

(** Sample values for the constants of the API packages, each named after
    its Go identifier; the controller never looks inside them. *)
Definition sample_constants : ApiConstants := {|
  ApplySucceedReason := "ApplySucceed";
  ApplyFailedReason := "ApplyFailed";
  BuildFailedReason := "BuildFailed";
  ArtifactFailedReason := "ArtifactFailed";
  StorageOperationFailedReason := "StorageOperationFailed";
  SyncAtAnnotation := "kustomize.fluxcd.io/syncAt";
  KustomizationReadyMessage := λ k,
    match condition_of k with
    | Some c => kustomizev1.Message c
    | None => ""
    end;
|}.

Definition meta (name : string) (generation : Z)
    (annotations : gmap string string) : metav1.ObjectMeta :=
  {| metav1.Name := name; metav1.Namespace := "default";
     metav1.Generation := generation; metav1.Annotations := annotations |}.

Definition podinfo (prune : string) : kustomizev1.Kustomization :=
  {| kustomizev1.Kind := "Kustomization";
     kustomizev1.ObjectMeta := meta "podinfo" 1 ∅;
     kustomizev1.Spec :=
       {| kustomizev1.Path := "./overlays/dev";
          kustomizev1.Prune := prune;
          kustomizev1.Interval := 300 * time.Second;
          kustomizev1.GitRepositoryRef := {| kustomizev1.Name := "repo" |} |};
     kustomizev1.Status := {| kustomizev1.Conditions := [] |} |}.

Definition repo (artifact : option sourcev1.Artifact)
  : sourcev1.GitRepository :=
  {| sourcev1.ObjectMeta := meta "repo" 1 ∅;
     sourcev1.Status := {| sourcev1.Artifact_ := artifact |} |}.

Definition repo_ready : sourcev1.GitRepository :=
  repo (Some {| sourcev1.URL := "https://x/artifact.tar.gz" |}).

Definition exit_status_1 : error := errors.New "exit status 1".

Definition count_commands (w : World) : nat :=
  length (List.filter is_command (events w)).

(** A host whose clock stands at [now], whose [TempDir] answers [tmp], and
    whose n-th sub-process ends as the n-th entry of [script] says (and
    succeeds silently past its end), leaving the disk as it is; every
    removal goes through. *)
Definition scripted_host (now : Z) (tmp : error + string)
    (script : list (string * option error)) : Host :=
  {| host_Now := λ _, now;
     host_TempDir := λ _ _ _, tmp;
     host_Run := λ w _ _ _,
       match script !! count_commands w with
       | Some (out, err) =>
         {| disk := dirs w; output := out; failure := err |}
       | None => {| disk := dirs w; output := ""; failure := None |}
       end;
     host_RemoveAll := λ _ _, None |}.

(** An API server that answers every request the same way. *)
Definition scripted_client (k : error + kustomizev1.Kustomization)
    (g : error + sourcev1.GitRepository) (u : option error) : Client :=
  {| client_Get_Kustomization := λ _ _ _, k;
     client_Get_GitRepository := λ _ _ _, g;
     client_Status_Update := λ _ _ _, u |}.

Definition reconciler (c : Client) : KustomizationReconciler :=
  {| Client_ := c; Log := {| values := [] |} |}.

Definition podinfo_request : ctrl.Request :=
  {| ctrl.NamespacedName :=
       {| types.Namespace := "default"; types.Name := "podinfo" |} |}.

Definition empty_world : World := {| dirs := []; events := [] |}.

Definition tmp_podinfo : string := "/tmp/repo976294531".

Definition build_diagnostic : string :=
  "Error: no kustomization.yaml in /tmp/repo976294531/overlays/dev".

Definition fetch_diagnostic : string :=
  "gzip: stdin: unexpected end of file".

(** Hosts whose fetch, render or apply step fails, and one where all three
    succeed. *)
Definition host_fetch_fails : Host :=
  scripted_host 1000 (inr tmp_podinfo)
    [(fetch_diagnostic, Some exit_status_1)].

Definition host_render_fails : Host :=
  scripted_host 1000 (inr tmp_podinfo)
    [("", None); (build_diagnostic, Some exit_status_1)].

Definition host_all_good : Host :=
  scripted_host 1000 (inr tmp_podinfo)
    [("", None); ("", None); ("deployment.apps/podinfo configured", None)].

Definition permission_denied : error :=
  errors.New "unlinkat /tmp/repo976294531/overlays: permission denied".

(** The host [h], except that every removal is refused with [err] and
    leaves the disk as it is (a read-only directory in the unpacked
    tree). *)
Definition refusing_removal (h : Host) (err : error) : Host :=
  {| host_Now := host_Now h;
     host_TempDir := host_TempDir h;
     host_Run := host_Run h;
     host_RemoveAll := λ w _, Some (err, dirs w) |}.

Definition host_readonly_tree : Host :=
  refusing_removal host_all_good permission_denied.

Definition api_ok (prune : string) : KustomizationReconciler :=
  reconciler (scripted_client (inr (podinfo prune)) (inr repo_ready) None).

Definition source_gone : error :=
  {| Error := "GitRepository.source.fluxcd.io repo not found";
     IsNotFound := true |}.

Definition api_source_gone : KustomizationReconciler :=
  reconciler (scripted_client (inr (podinfo "")) (inl source_gone) None).

(** A disk that already holds a workspace of an earlier attempt and an
    unrelated directory. *)
Definition busy_world : World :=
  {| dirs := [tmp_podinfo +:+ "/overlays"; "/tmp/other"]; events := [] |}.

Definition sync_at (value : string) : gmap string string :=
  {[ "kustomize.fluxcd.io/syncAt" := value ]}.

(** ** Reading a trace *)

(** The sub-processes among the events, oldest first: program and
    arguments. *)
Definition command_lines (tr : list Event) : list (string * list string) :=
  omap (λ ev, match ev with
              | EvCommand _ name arg => Some (name, arg)
              | _ => None
              end) tr.

(** The objects whose status was written, oldest first. *)
Definition status_writes (tr : list Event)
  : list kustomizev1.Kustomization :=
  omap (λ ev, match ev with
              | EvStatusUpdate _ obj => Some obj
              | _ => None
              end) tr.

(** The effects a sync attempt has: on the local disk and standard output,
    and shell commands under the context of the attempt. *)
Definition local_effect (ctx : context.Context) (ev : Event) : Prop :=
  match ev with
  | EvTempDir dir _ => dir = ""
  | EvRemoveAll _ | EvPrintln _ => True
  | EvCommand c name arg =>
    c = ctx ∧ name = "/bin/sh" ∧ ∃ cmd, arg = ["-c"; cmd]
  | _ => False
  end.

(** The apply command [sync] chooses for [k]. *)
Definition chosen_apply_cmd (tmpDir : string) (k : kustomizev1.Kustomization)
  : string :=
  if String.eqb (kustomizev1.Prune (kustomizev1.Spec k)) ""
  then apply_cmd tmpDir k
  else apply_prune_cmd tmpDir k.

(** More environments: a host without room for a workspace, a host whose
    apply step fails, and API servers that lose the object, fail to load
    it, or refuse the status write. *)
Definition no_space : error := errors.New "mkdir /tmp/repo: no space left".

Definition host_no_workspace : Host :=
  scripted_host 1000 (inl no_space) [].

Definition apply_diagnostic : string :=
  "error: unable to recognize podinfo.yaml".

Definition host_apply_fails : Host :=
  scripted_host 1000 (inr tmp_podinfo)
    [("", None); ("", None); (apply_diagnostic, Some exit_status_1)].

Definition object_gone : error :=
  {| Error := "Kustomization.kustomize.fluxcd.io podinfo not found";
     IsNotFound := true |}.

Definition api_object_gone : KustomizationReconciler :=
  reconciler (scripted_client (inl object_gone) (inr repo_ready) None).

Definition server_timeout : error :=
  {| Error := "context deadline exceeded"; IsNotFound := false |}.

Definition api_object_unreadable : KustomizationReconciler :=
  reconciler (scripted_client (inl server_timeout) (inr repo_ready) None).

Definition write_conflict : error :=
  {| Error := "the object has been modified"; IsNotFound := false |}.

Definition api_write_conflict : KustomizationReconciler :=
  reconciler (scripted_client (inr (podinfo "")) (inr repo_ready)
                (Some write_conflict)).

(** * Properties *)

(** ** Strings and effects *)

Lemma append_assoc (s1 s2 s3 : string) :
  (s1 +:+ s2) +:+ s3 = s1 +:+ s2 +:+ s3.
Proof.
  induction s1 as [|a s1 IH]; [reflexivity|].
  change (String a ((s1 +:+ s2) +:+ s3) = String a (s1 +:+ s2 +:+ s3)).
  by rewrite IH.
Qed.

Lemma within_refl (p : string) : within p p = true.
Proof. unfold within. by rewrite String.eqb_refl. Qed.

Lemma RemoveAll_events (host : Host) (path : string) (w : World) :
  events (os_RemoveAll host path w).2 = events w ++ [EvRemoveAll path].
Proof. reflexivity. Qed.

Lemma RemoveAll_dirs (host : Host) (path p : string) (w : World) :
  host_RemoveAll host w path = None →
  p ∈ dirs (os_RemoveAll host path w).2 → p ∈ dirs w ∧ within path p = false.
Proof.
  intros Hr. cbn. rewrite Hr, list_elem_of_In, filter_In, <- list_elem_of_In.
  intros [? ?%negb_true_iff]. done.
Qed.

Lemma defer_world {A B} (cleanup : M B) (body : M A) (w : World) :
  (defer cleanup body w).2 = (cleanup (body w).2).2.
Proof.
  unfold defer, mbind, M_bind, mret, M_ret.
  destruct (body w) as [a w']. cbn. by destruct (cleanup w').
Qed.

Lemma defer_value {A B} (cleanup : M B) (body : M A) (w : World) :
  (defer cleanup body w).1 = (body w).1.
Proof.
  unfold defer, mbind, M_bind, mret, M_ret.
  destruct (body w) as [a w']. cbn. by destruct (cleanup w').
Qed.

(** An action that appends one event satisfying [P]. *)
Ltac one_event :=
  let HP := fresh in
  intros HP ?; eexists [_]; split; [reflexivity|by constructor].

Lemma emits_ret {A} (P : Event → Prop) (a : A) : emits P (mret a).
Proof. intros w. exists []. by rewrite app_nil_r. Qed.

Lemma emits_bind {A B} (P : Event → Prop) (m : M A) (f : A → M B) :
  emits P m → (∀ a, emits P (f a)) → emits P (m ≫= f).
Proof.
  intros Hm Hf w. unfold mbind, M_bind.
  destruct (Hm w) as (tr1 & E1 & F1). destruct (m w) as [a w1].
  destruct (Hf a w1) as (tr2 & E2 & F2).
  exists (tr1 ++ tr2). split; [|by apply Forall_app].
  rewrite E2. cbn in E1. by rewrite E1, app_assoc.
Qed.

Lemma emits_defer {A B} (P : Event → Prop) (cleanup : M B) (body : M A) :
  emits P cleanup → emits P body → emits P (defer cleanup body).
Proof.
  intros Hc Hb. unfold defer. apply emits_bind; [done|]. intros a.
  apply emits_bind; [done|]. intros _. apply emits_ret.
Qed.

Lemma emits_RemoveAll (P : Event → Prop) (host : Host) (path : string) :
  P (EvRemoveAll path) → emits P (os_RemoveAll host path).
Proof. one_event. Qed.

Lemma emits_Println (P : Event → Prop) (line : string) :
  P (EvPrintln line) → emits P (fmt_Println line).
Proof. one_event. Qed.

Lemma emits_log_Error (P : Event → Prop) (log : Logger) (err : error)
    (msg : string) (kvs : list (string * string)) :
  P (EvLogError (values log) err msg kvs) → emits P (log_Error log err msg kvs).
Proof. one_event. Qed.

Lemma emits_log_Info (P : Event → Prop) (log : Logger) (msg : string)
    (kvs : list (string * string)) :
  P (EvLogInfo (values log) msg kvs) → emits P (log_Info log msg kvs).
Proof. one_event. Qed.

Lemma emits_Get_Kustomization (P : Event → Prop) (r : KustomizationReconciler)
    (ctx : context.Context) (key : types.NamespacedName) :
  P (EvGetKustomization ctx key) → emits P (Get_Kustomization r ctx key).
Proof. one_event. Qed.

Lemma emits_Get_GitRepository (P : Event → Prop) (r : KustomizationReconciler)
    (ctx : context.Context) (key : types.NamespacedName) :
  P (EvGetGitRepository ctx key) → emits P (Get_GitRepository r ctx key).
Proof. one_event. Qed.

Lemma emits_Status_Update (P : Event → Prop) (r : KustomizationReconciler)
    (ctx : context.Context) (obj : kustomizev1.Kustomization) :
  P (EvStatusUpdate ctx obj) → emits P (Status_Update r ctx obj).
Proof. one_event. Qed.

Lemma under_no_context (ctx : context.Context) (ev : Event) :
  event_ctx ev = None → under ctx ev.
Proof. intros E c. by rewrite E. Qed.

Lemma under_same (ctx : context.Context) (ev : Event) :
  event_ctx ev = Some ctx → under ctx ev.
Proof. intros E c. rewrite E. by intros [= <-]. Qed.

Section effects.
Context `{ApiConstants}.
Variable host : Host.

Lemma emits_TempDir (P : Event → Prop) (dir pattern : string) :
  P (EvTempDir dir pattern) → emits P (ioutil_TempDir host dir pattern).
Proof.
  intros HP w. exists [EvTempDir dir pattern]. unfold ioutil_TempDir.
  destruct (host_TempDir host w dir pattern); (split; [done|by constructor]).
Qed.

Lemma emits_CombinedOutput (P : Event → Prop) (ctx : context.Context)
    (name : string) (arg : list string) :
  P (EvCommand ctx name arg) → emits P (exec_CombinedOutput host ctx name arg).
Proof.
  intros HP w. exists [EvCommand ctx name arg].
  split; [done|by constructor].
Qed.

Lemma artifact_url_Some (repository : sourcev1.GitRepository) (url : string) :
  artifact_url repository = Some url →
  ∃ a, sourcev1.Artifact_ (sourcev1.Status repository) = Some a ∧
       sourcev1.URL a = url ∧ String.eqb (sourcev1.URL a) "" = false.
Proof.
  unfold artifact_url. destruct (sourcev1.Artifact_ _) as [a|]; [|done].
  destruct (String.eqb _ _) eqn:E; [done|]. intros [= <-]. eauto.
Qed.

Lemma artifact_url_None (repository : sourcev1.GitRepository) :
  artifact_url repository = None ↔
  sourcev1.Artifact_ (sourcev1.Status repository) = None ∨
  ∃ a, sourcev1.Artifact_ (sourcev1.Status repository) = Some a ∧
       sourcev1.URL a = "".
Proof.
  unfold artifact_url. destruct (sourcev1.Artifact_ _) as [a|].
  - destruct (String.eqb_spec (sourcev1.URL a) "") as [E|E]; split.
    + intros _. right. eauto.
    + done.
    + done.
    + intros [?|(b & [= <-] & ?)]; done.
  - split; [by left|done].
Qed.

Lemma apply_prune_cmd_eq (tmpDir : string) (k : kustomizev1.Kustomization) :
  apply_prune_cmd tmpDir k =
  apply_cmd tmpDir k +:+ " --prune -l " +:+
  kustomizev1.Prune (kustomizev1.Spec k).
Proof.
  unfold apply_prune_cmd, apply_cmd. by rewrite !append_assoc.
Qed.

(** Every event of a sync attempt is under the context it was given. *)
Lemma sync_emits_under (r : KustomizationReconciler) (ctx : context.Context)
    (k : kustomizev1.Kustomization) (repository : sourcev1.GitRepository) :
  emits (under ctx) (sync host r ctx k repository).
Proof.
  unfold sync. destruct (sourcev1.Artifact_ _) as [a|]; [|apply emits_ret].
  destruct (String.eqb _ _); [apply emits_ret|].
  apply emits_bind; [by apply emits_TempDir, under_no_context|].
  intros [e|tmpDir]; [apply emits_ret|].
  apply emits_defer; [by apply emits_RemoveAll, under_no_context|].
  apply emits_bind; [by apply emits_CombinedOutput, under_same|].
  intros [out [e|]]; [apply emits_ret|].
  apply emits_bind; [by apply emits_CombinedOutput, under_same|].
  intros [out2 [e|]].
  { apply emits_bind; [by apply emits_Println, under_no_context|].
    intros _. apply emits_ret. }
  apply emits_bind; [by apply emits_CombinedOutput, under_same|].
  intros [out3 [e|]]; [apply emits_ret|].
  apply emits_bind; [by apply emits_Println, under_no_context|].
  intros _. apply emits_ret.
Qed.

End effects.

(** ** The change predicate *)

Section predicate_properties.
Context `{ApiConstants}.

(** [Update] lets an event through exactly when both sides carry metadata
    and either the generation changed, or the new side has the sync-at
    annotation and the old side lacks it or holds another value. *)
Lemma Update_true_iff (e : event.UpdateEvent) :
  Update e = true ↔
  ∃ old new,
    event.MetaOld e = Some old ∧ event.MetaNew e = Some new ∧
    (metav1.GetGeneration new ≠ metav1.GetGeneration old ∨
     ∃ val, metav1.GetAnnotations new !! SyncAtAnnotation = Some val ∧
            metav1.GetAnnotations old !! SyncAtAnnotation ≠ Some val).
Proof.
  unfold Update.
  destruct (event.MetaOld e) as [old|], (event.MetaNew e) as [new|];
    try (split; [done|by intros (? & ? & ? & ? & _)]).
  destruct (Z.eqb_spec (metav1.GetGeneration new) (metav1.GetGeneration old))
    as [Eg|Ng]; cbn.
  2:{ split; [|done]. intros _. exists old, new. auto. }
  destruct (metav1.GetAnnotations new !! SyncAtAnnotation) as [val|] eqn:En.
  2:{ split; [done|]. intros (? & ? & [= <-] & [= <-] & [?|(v & Ev & _)]);
      [done|]. by rewrite En in Ev. }
  destruct (metav1.GetAnnotations old !! SyncAtAnnotation) as [valOld|] eqn:Eo.
  2:{ split; [|done]. intros _. exists old, new. repeat split.
      right. exists val. by rewrite En, Eo. }
  destruct (String.eqb_spec val valOld) as [->|Nv]; cbn.
  - split; [done|].
    intros (? & ? & [= <-] & [= <-] & [?|(v & Ev & Nv)]); [done|].
    rewrite En in Ev. rewrite Eo in Nv. congruence.
  - split; [|done]. intros _. exists old, new. repeat split.
    right. exists val. rewrite En, Eo. split; [done|]. congruence.
Qed.

(** C8: an update event with metadata on both sides whose old and new
    generations differ passes the predicate, whatever the annotations of
    either side are. *)
Theorem Update_generation_changed (e : event.UpdateEvent)
    (old new : metav1.ObjectMeta) :
  event.MetaOld e = Some old →
  event.MetaNew e = Some new →
  metav1.GetGeneration new ≠ metav1.GetGeneration old →
  Update e = true.
Proof.
  intros Ho Hn Hg. unfold Update. rewrite Ho, Hn.
  by destruct (Z.eqb_spec (metav1.GetGeneration new)
                 (metav1.GetGeneration old)).
Qed.

(** C9: the predicate rejects an update event that lacks metadata on the
    old or on the new side, and one whose generations are equal while the
    sync-at annotation is absent from the new object or has on the new
    object the value it has on the old one. *)
Theorem Update_suppressed (e : event.UpdateEvent) :
  (event.MetaOld e = None ∨ event.MetaNew e = None ∨
   ∃ old new,
     event.MetaOld e = Some old ∧ event.MetaNew e = Some new ∧
     metav1.GetGeneration new = metav1.GetGeneration old ∧
     (metav1.GetAnnotations new !! SyncAtAnnotation = None ∨
      metav1.GetAnnotations new !! SyncAtAnnotation =
      metav1.GetAnnotations old !! SyncAtAnnotation)) →
  Update e = false.
Proof.
  intros Hs. apply not_true_is_false. rewrite Update_true_iff.
  intros (old & new & Ho & Hn & Hc).
  destruct Hs as [Hs|[Hs|(old' & new' & Ho' & Hn' & Hg & Ha)]];
    [congruence..|].
  assert (old' = old) as -> by congruence.
  assert (new' = new) as -> by congruence.
  destruct Hc as [?|(val & Ev & Nv)]; [done|].
  destruct Ha as [Ea|Ea]; congruence.
Qed.

End predicate_properties.

(** ** The sync attempt *)

Section sync_properties.
Context `{ApiConstants}.
Variable host : Host.

(** Unfolds the stages named in hypotheses to the calls [sync] makes. *)
Ltac stages :=
  unfold workspace, sh, fetch_cmd, build_cmd, apply_cmd, apply_prune_cmd,
    sourcev1.GetName, metav1.GetName in *.

(** Unfolds the monad of effects. *)
Ltac effects := unfold defer, mbind, M_bind, mret, M_ret, fmt_Println.

(** C1, as amended: the status condition of the object [sync] returns is
    [StatusReporter] of the outcome of the attempt: Ready, ApplySucceedReason
    and the fixed message after success; NotReady after a failure, with
    ArtifactFailedReason for a missing artifact and for a failed fetch
    alike, StorageOperationFailedReason for the workspace,
    BuildFailedReason for the render and ApplyFailedReason for the apply
    step. *)
Theorem sync_condition_of_result (r : KustomizationReconciler)
    (ctx : context.Context) (k : kustomizev1.Kustomization)
    (repository : sourcev1.GitRepository) (w : World) :
  condition_of (sync host r ctx k repository w).1.1 =
  Some (StatusReporter (attempt_result host ctx k repository w)).
Proof.
  unfold sync, attempt_result, artifact_url. stages.
  destruct (sourcev1.Artifact_ _) as [a|]; [|reflexivity].
  destruct (String.eqb _ _); [reflexivity|].
  effects.
  destruct (ioutil_TempDir _ _ _ _) as [[e|tmpDir] w1]; [reflexivity|].
  destruct (exec_CombinedOutput _ _ _ _ w1) as [[out1 [e|]] w2];
    [reflexivity|].
  destruct (exec_CombinedOutput _ _ _ _ w2) as [[out2 [e|]] w3];
    [reflexivity|].
  destruct (String.eqb _ _); cbn [negb];
    by destruct (exec_CombinedOutput _ _ _ _ w3) as [[out3 [e|]] w4].
Qed.

(** C3: when the artifact of the source object is absent, or its URL is the
    empty string, [sync] returns the object NotReady with
    ArtifactFailedReason together with the artifact-not-found error, and
    leaves the world as it found it: no event is issued (no [TempDir]) and
    no directory appears. *)
Theorem sync_artifact_missing (r : KustomizationReconciler)
    (ctx : context.Context) (k : kustomizev1.Kustomization)
    (repository : sourcev1.GitRepository) (w : World) :
  (sourcev1.Artifact_ (sourcev1.Status repository) = None ∨
   ∃ a, sourcev1.Artifact_ (sourcev1.Status repository) = Some a ∧
        sourcev1.URL a = "") →
  sync host r ctx k repository w =
  ((kustomizev1.KustomizationNotReady k ArtifactFailedReason
      ("artifact not found in " +:+ sourcev1.GetName repository),
    Some (fmt.Errorf ("artifact not found in " +:+
                      sourcev1.GetName repository))),
   w).
Proof.
  intros [Ha|(a & Ha & Hu)]; unfold sync; rewrite Ha; [reflexivity|].
  by rewrite Hu.
Qed.

(** C4, as amended: when the attempt obtains its workspace directory
    [tmpDir], [sync] ends, however the later steps end, with the call
    [RemoveAll tmpDir]: that call is its last event, made in the world [w']
    the steps left, and the world [sync] returns in is the one that call
    leaves.  When the call goes through, neither [tmpDir] nor anything
    below it is on the disk afterwards.  [sync] drops the result of the
    call, and nothing is promised when the removal is refused. *)
Theorem sync_workspace_removal (r : KustomizationReconciler)
    (ctx : context.Context) (k : kustomizev1.Kustomization)
    (repository : sourcev1.GitRepository) (w : World)
    (url tmpDir : string) (w1 : World) :
  artifact_url repository = Some url →
  workspace host repository w = (inr tmpDir, w1) →
  ∃ w',
    (sync host r ctx k repository w).2 = (os_RemoveAll host tmpDir w').2
    ∧ last (events (sync host r ctx k repository w).2)
      = Some (EvRemoveAll tmpDir)
    ∧ (host_RemoveAll host w' tmpDir = None →
       (tmpDir ∉ dirs (sync host r ctx k repository w).2)
       ∧ (∀ p, p ∈ dirs (sync host r ctx k repository w).2 →
               within tmpDir p = false)).
Proof.
  intros (a & Ha & <- & Hu)%artifact_url_Some Hw. stages.
  assert (∃ w', (sync host r ctx k repository w).2 =
                (os_RemoveAll host tmpDir w').2) as [w' E].
  { unfold sync. rewrite Ha, Hu. unfold mbind at 1, M_bind at 1.
    rewrite Hw. rewrite defer_world. eauto. }
  exists w'. rewrite E. split; [done|].
  split; [by rewrite RemoveAll_events, last_snoc|].
  intros Hr. split.
  - intros [_ Hin]%RemoveAll_dirs; [|done]. by rewrite within_refl in Hin.
  - by intros p [_ Hin]%RemoveAll_dirs.
Qed.

(** C5, as amended: when the render step fails with error [e] and combined
    output [out], [sync] returns the object NotReady with BuildFailedReason
    and the message "kustomize build error: " followed by the text of [e];
    the captured output [out] is printed to standard output and carried by
    the error [sync] returns. *)
Theorem sync_render_failed (r : KustomizationReconciler)
    (ctx : context.Context) (k : kustomizev1.Kustomization)
    (repository : sourcev1.GitRepository) (w : World)
    (url tmpDir : string) (w1 : World) (out1 : string) (w2 : World)
    (out : string) (e : error) (w3 : World) :
  artifact_url repository = Some url →
  workspace host repository w = (inr tmpDir, w1) →
  sh host ctx (fetch_cmd tmpDir url) w1 = ((out1, None), w2) →
  sh host ctx (build_cmd tmpDir k) w2 = ((out, Some e), w3) →
  sync host r ctx k repository w =
  ((kustomizev1.KustomizationNotReady k BuildFailedReason
      ("kustomize build error: " +:+ Error e),
    Some (fmt.Errorf ("kustomize build error: " +:+ out))),
   (os_RemoveAll host tmpDir (record (EvPrintln out) w3)).2).
Proof.
  intros (a & Ha & <- & Hu)%artifact_url_Some Hw Hf Hb. stages.
  unfold sync. rewrite Ha, Hu. effects.
  by rewrite Hw, Hf, Hb.
Qed.

(** C7: when the attempt reaches the apply stage (artifact present,
    workspace [tmpDir] obtained, fetch and render succeeded, leaving world
    [w3]), the next thing [sync] does is to run one shell command, after
    which it runs no other.  With a non-empty Prune that command is the
    plain apply command followed by [--prune -l] and the selector; with an
    empty Prune it is the plain apply command and nothing more. *)
Theorem sync_apply_command (r : KustomizationReconciler)
    (ctx : context.Context) (k : kustomizev1.Kustomization)
    (repository : sourcev1.GitRepository) (w : World)
    (url tmpDir : string) (w1 : World) (out1 : string) (w2 : World)
    (out2 : string) (w3 : World) :
  artifact_url repository = Some url →
  workspace host repository w = (inr tmpDir, w1) →
  sh host ctx (fetch_cmd tmpDir url) w1 = ((out1, None), w2) →
  sh host ctx (build_cmd tmpDir k) w2 = ((out2, None), w3) →
  ∃ cmd tail,
    events (sync host r ctx k repository w).2 =
      events w3 ++ EvCommand ctx "/bin/sh" ["-c"; cmd] :: tail
    ∧ Forall (λ ev, is_command ev = false) tail
    ∧ (kustomizev1.Prune (kustomizev1.Spec k) ≠ "" →
       cmd = apply_cmd tmpDir k +:+ " --prune -l " +:+
             kustomizev1.Prune (kustomizev1.Spec k))
    ∧ (kustomizev1.Prune (kustomizev1.Spec k) = "" →
       cmd = apply_cmd tmpDir k).
Proof.
  intros (a & Ha & <- & Hu)%artifact_url_Some Hw Hf Hb.
  pose proof (apply_prune_cmd_eq tmpDir k) as Hp. stages.
  unfold sync. rewrite Ha, Hu. effects. rewrite Hw, Hf, Hb. cbv beta iota.
  destruct (String.eqb_spec (kustomizev1.Prune (kustomizev1.Spec k)) "")
    as [Ep|Np]; cbn [negb];
    destruct (exec_CombinedOutput _ _ _ _ w3) as [[out3 [e|]] w4] eqn:Hr;
    unfold exec_CombinedOutput in Hr; injection Hr as _ _ <-; cbn;
    eexists _, _; rewrite <- ?app_assoc;
    (split; [reflexivity|]);
    (split; [by repeat constructor|]); by split.
Qed.

End sync_properties.

(** ** The reconcile loop *)

Section reconcile_properties.
Context `{ApiConstants}.
Variable host : Host.

(** An action that appends [ev] and then continues under [P]. *)
Lemma emits_after {A B} (P : Event → Prop) (m : M A) (f : A → M B)
    (ev : Event) (w : World) :
  (m w).2 = record ev w →
  (∀ a, emits P (f a)) →
  ∃ tr, events ((m ≫= f) w).2 = events w ++ ev :: tr ∧ Forall P tr.
Proof.
  intros Hm Hf. unfold mbind, M_bind. destruct (m w) as [a w1].
  cbn in Hm. subst w1. destruct (Hf a (record ev w)) as (tr & E & F).
  exists tr. split; [|done]. rewrite E. cbn. by rewrite <- app_assoc.
Qed.

(** C10: [Reconcile] takes no context from its caller; it makes one from
    the background context with a timeout of 15 seconds, so that its
    deadline is the clock reading at the start plus 15 000 000 000 ns,
    whatever the Interval of the object.  The first call, the load of the
    object, is under that context, the last thing done is to cancel it, and
    every call in between that takes a context (the load of the source, the
    fetch, render and apply commands, the status write) takes that one. *)
Theorem Reconcile_single_context (r : KustomizationReconciler)
    (req : ctrl.Request) (w : World) :
  let ctx :=
    context.WithTimeout context.Background (15 * time.Second)
      (host_Now host w) in
  context.Deadline ctx = Some (host_Now host w + 15000000000) ∧
  ∃ tr,
    events (Reconcile host r req w).2 =
      events w ++
      EvGetKustomization ctx (ctrl.NamespacedName req) :: tr ++ [EvCancel ctx]
    ∧ Forall (under ctx) tr.
Proof.
  intros ctx. split; [reflexivity|].
  unfold Reconcile. unfold mbind at 1, M_bind at 1, time_Now.
  cbv beta iota zeta. fold ctx. rewrite defer_world.
  match goal with
  | |- context [mbind ?f (Get_Kustomization r ctx _)] =>
    destruct (emits_after (under ctx)
                (Get_Kustomization r ctx (ctrl.NamespacedName req)) f
                (EvGetKustomization ctx (ctrl.NamespacedName req)) w eq_refl)
      as (tr & E & F)
  end.
  2:{ exists tr. split; [|exact F]. unfold cancel. cbn [snd].
      unfold record at 1. cbn [events]. rewrite E.
      by rewrite <- app_assoc. }
  intros [e|k]; [apply emits_ret|].
  apply emits_bind; [by apply emits_Get_GitRepository, under_same|].
  intros [e|repository].
  { apply emits_bind; [by apply emits_log_Error, under_no_context|].
    intros _. apply emits_ret. }
  apply emits_bind; [apply sync_emits_under|].
  intros [k' err]. apply emits_bind.
  { destruct err; [by apply emits_log_Error, under_no_context|].
    apply emits_ret. }
  intros _. apply emits_bind; [by apply emits_Status_Update, under_same|].
  intros [e|].
  - apply emits_bind; [by apply emits_log_Error, under_no_context|].
    intros _. apply emits_ret.
  - apply emits_bind; [by apply emits_log_Info, under_no_context|].
    intros _. apply emits_ret.
Qed.

(** C2: when the load of the object and the load of its source succeed and
    the status write succeeds, [Reconcile] returns no error and asks for a
    requeue after the Interval of the object, whether [sync] returned an
    error ([err]) or not. *)
Theorem Reconcile_requeue_after_interval (r : KustomizationReconciler)
    (req : ctrl.Request) (w w1 w2 w3 w5 : World)
    (k : kustomizev1.Kustomization) (repository : sourcev1.GitRepository)
    (k' : kustomizev1.Kustomization) (err : option error) :
  let ctx :=
    context.WithTimeout context.Background (15 * time.Second)
      (host_Now host w) in
  let log :=
    WithValues (Log r) (kustomizev1.Kind k)
      (types.String (ctrl.NamespacedName req)) in
  Get_Kustomization r ctx (ctrl.NamespacedName req) w = (inr k, w1) →
  Get_GitRepository r ctx (repositoryName k) w1 = (inr repository, w2) →
  sync host r ctx k repository w2 = ((k', err), w3) →
  Status_Update r ctx k'
    match err with
    | Some e => (log_Error log e "Kustomization sync failed" [] w3).2
    | None => w3
    end = (None, w5) →
  (Reconcile host r req w).1 =
  ({| ctrl.Requeue := false;
      ctrl.RequeueAfter := kustomizev1.Interval (kustomizev1.Spec k) |},
   None).
Proof.
  intros ctx log Hk Hg Hs Hu. unfold Reconcile.
  unfold mbind at 1, M_bind at 1, time_Now. cbv beta iota zeta.
  fold ctx. rewrite defer_value. unfold mbind, M_bind.
  rewrite Hk. fold (repositoryName k). rewrite Hg.
  unfold kustomizev1.DeepCopy. rewrite Hs.
  destruct err as [e|]; cbn [snd] in Hu; fold log.
  - destruct (log_Error log e _ _ w3) as [[] w4]. cbn [snd] in Hu.
    by rewrite Hu.
  - unfold mret at 1, M_ret at 1. by rewrite Hu.
Qed.

(** C6: when the object loads and the load of its source fails with [err],
    [Reconcile] returns [err] with a requeue request, and between its start
    and its return it has issued no status write and left the disk as it
    was. *)
Theorem Reconcile_source_load_failed (r : KustomizationReconciler)
    (req : ctrl.Request) (w w1 w2 : World)
    (k : kustomizev1.Kustomization) (err : error) :
  let ctx :=
    context.WithTimeout context.Background (15 * time.Second)
      (host_Now host w) in
  Get_Kustomization r ctx (ctrl.NamespacedName req) w = (inr k, w1) →
  Get_GitRepository r ctx (repositoryName k) w1 = (inl err, w2) →
  (Reconcile host r req w).1 =
    ({| ctrl.Requeue := true; ctrl.RequeueAfter := 0 |}, Some err)
  ∧ (∃ tr, events (Reconcile host r req w).2 = events w ++ tr ∧
           Forall (λ ev, is_status_update ev = false) tr)
  ∧ dirs (Reconcile host r req w).2 = dirs w.
Proof.
  intros ctx Hk Hg.
  assert (Reconcile host r req w =
          (({| ctrl.Requeue := true; ctrl.RequeueAfter := 0 |}, Some err),
           record (EvCancel ctx)
             (record (EvLogError
                        (values (WithValues (Log r) (kustomizev1.Kind k)
                                   (types.String (ctrl.NamespacedName req))))
                        err "GitRepository not found"
                        [("gitrepository",
                          types.String (repositoryName k))]) w2))) as ->.
  { unfold Reconcile. unfold mbind at 1, M_bind at 1, time_Now.
    cbv beta iota zeta. fold ctx. unfold defer, mbind, M_bind.
    rewrite Hk. fold (repositoryName k). by rewrite Hg. }
  unfold Get_Kustomization in Hk. injection Hk as _ <-.
  unfold Get_GitRepository in Hg. injection Hg as _ <-.
  split; [reflexivity|]. split; [|reflexivity].
  eexists [_; _; _; _]. cbn. rewrite <- !app_assoc. split; [reflexivity|].
  by repeat constructor.
Qed.

End reconcile_properties.

(** ** More on the change predicate *)

Section predicate_triggers.
Context `{ApiConstants}.

(** X13: the manual trigger: with metadata on both sides, an event whose new
    object carries the sync-at annotation passes the predicate when the old
    object lacks the annotation or holds another value, also when the
    generation did not change. *)
Theorem Update_sync_at_changed (e : event.UpdateEvent)
    (old new : metav1.ObjectMeta) (val : string) :
  event.MetaOld e = Some old →
  event.MetaNew e = Some new →
  metav1.GetAnnotations new !! SyncAtAnnotation = Some val →
  metav1.GetAnnotations old !! SyncAtAnnotation ≠ Some val →
  Update e = true.
Proof.
  intros Ho Hn Ev Nv. apply Update_true_iff. exists old, new.
  split; [done|]. split; [done|]. right. eauto.
Qed.

(** X14: the predicate reads nothing but the two generations and the sync-at
    annotation of the two sides: events that agree on these get the same
    answer, whatever their names, namespaces and other annotations. *)
Theorem Update_reads_generation_and_sync_at (e1 e2 : event.UpdateEvent)
    (old1 new1 old2 new2 : metav1.ObjectMeta) :
  event.MetaOld e1 = Some old1 → event.MetaNew e1 = Some new1 →
  event.MetaOld e2 = Some old2 → event.MetaNew e2 = Some new2 →
  metav1.GetGeneration old1 = metav1.GetGeneration old2 →
  metav1.GetGeneration new1 = metav1.GetGeneration new2 →
  metav1.GetAnnotations old1 !! SyncAtAnnotation =
    metav1.GetAnnotations old2 !! SyncAtAnnotation →
  metav1.GetAnnotations new1 !! SyncAtAnnotation =
    metav1.GetAnnotations new2 !! SyncAtAnnotation →
  Update e1 = Update e2.
Proof.
  intros Ho1 Hn1 Ho2 Hn2 Go Gn Ao An. unfold Update.
  by rewrite Ho1, Hn1, Ho2, Hn2, Go, Gn, Ao, An.
Qed.

End predicate_triggers.

(** ** More on the sync attempt *)

Lemma command_lines_app (tr1 tr2 : list Event) :
  command_lines (tr1 ++ tr2) = command_lines tr1 ++ command_lines tr2.
Proof. apply omap_app. Qed.

Lemma status_writes_app (tr1 tr2 : list Event) :
  status_writes (tr1 ++ tr2) = status_writes tr1 ++ status_writes tr2.
Proof. apply omap_app. Qed.

Lemma local_effects_write_no_status (ctx : context.Context)
    (tr : list Event) :
  Forall (local_effect ctx) tr → status_writes tr = [].
Proof.
  induction 1 as [|ev tr Hev _ IH]; [done|].
  unfold status_writes in *. cbn. rewrite IH. by destruct ev.
Qed.

Section sync_paths.
Context `{ApiConstants}.
Variable host : Host.

Ltac stages :=
  unfold chosen_apply_cmd, workspace, sh, fetch_cmd, build_cmd, apply_cmd,
    apply_prune_cmd, sourcev1.GetName, metav1.GetName in *.

Ltac effects := unfold defer, mbind, M_bind, mret, M_ret, fmt_Println.

Ltac finish := split; [reflexivity|]; split; [lia|]; reflexivity.

(** Every event of a sync attempt is a local effect. *)
Lemma sync_emits_local_effects (r : KustomizationReconciler)
    (ctx : context.Context) (k : kustomizev1.Kustomization)
    (repository : sourcev1.GitRepository) :
  emits (local_effect ctx) (sync host r ctx k repository).
Proof.
  assert (∀ cmd, local_effect ctx (EvCommand ctx "/bin/sh" ["-c"; cmd]))
    as Hc by (intros cmd; cbn; eauto).
  unfold sync. destruct (sourcev1.Artifact_ _) as [a|]; [|apply emits_ret].
  destruct (String.eqb _ _); [apply emits_ret|].
  apply emits_bind; [by apply emits_TempDir|].
  intros [e|tmpDir]; [apply emits_ret|].
  apply emits_defer; [by apply emits_RemoveAll|].
  apply emits_bind; [apply emits_CombinedOutput, Hc|].
  intros [out [e|]]; [apply emits_ret|].
  apply emits_bind; [apply emits_CombinedOutput, Hc|].
  intros [out2 [e|]].
  { apply emits_bind; [by apply emits_Println|]. intros _. apply emits_ret. }
  apply emits_bind; [apply emits_CombinedOutput, Hc|].
  intros [out3 [e|]]; [apply emits_ret|].
  apply emits_bind; [by apply emits_Println|]. intros _. apply emits_ret.
Qed.

(** X6: a sync attempt stays on the host: it asks for a temporary directory
    under the default location, removes paths, prints, and runs commands
    through [/bin/sh -c] under its context; it never calls the API server,
    never logs and never cancels the context. *)
Theorem sync_local_effects (r : KustomizationReconciler)
    (ctx : context.Context) (k : kustomizev1.Kustomization)
    (repository : sourcev1.GitRepository) (w : World) :
  ∃ tr, events (sync host r ctx k repository w).2 = events w ++ tr
        ∧ Forall (local_effect ctx) tr.
Proof. apply sync_emits_local_effects. Qed.

(** X7: when no workspace can be had, [sync] returns the object NotReady with
    StorageOperationFailedReason and the text of the error behind
    "tmp dir error: ", returns that wrapped error, and has done nothing but
    ask for the directory: no command is run, nothing is removed, the disk
    is as before. *)
Theorem sync_workspace_failed (r : KustomizationReconciler)
    (ctx : context.Context) (k : kustomizev1.Kustomization)
    (repository : sourcev1.GitRepository) (w : World)
    (url : string) (e : error) (w1 : World) :
  artifact_url repository = Some url →
  workspace host repository w = (inl e, w1) →
  sync host r ctx k repository w =
  ((kustomizev1.KustomizationNotReady k StorageOperationFailedReason
      ("tmp dir error: " +:+ Error e),
    Some (fmt.Errorf_w "tmp dir error: " e)),
   record (EvTempDir "" (sourcev1.GetName repository)) w).
Proof.
  intros (a & Ha & <- & Hu)%artifact_url_Some Hw. stages.
  assert (w1 = record (EvTempDir "" (metav1.Name
                                       (sourcev1.ObjectMeta repository))) w)
    as ->.
  { unfold ioutil_TempDir in Hw.
    destruct (host_TempDir _ _ _ _); [by injection Hw|discriminate]. }
  unfold sync. rewrite Ha, Hu. effects. by rewrite Hw.
Qed.

(** X8: when the fetch step fails, [sync] returns the object NotReady with
    ArtifactFailedReason and the text of the exit error behind
    "artifact acquisition failed: ", returns an error that quotes the URL
    and the combined output of the step, and goes on to nothing but the
    removal of the workspace: neither render nor apply is run. *)
Theorem sync_fetch_failed (r : KustomizationReconciler)
    (ctx : context.Context) (k : kustomizev1.Kustomization)
    (repository : sourcev1.GitRepository) (w : World)
    (url tmpDir : string) (w1 : World) (out : string) (e : error)
    (w2 : World) :
  artifact_url repository = Some url →
  workspace host repository w = (inr tmpDir, w1) →
  sh host ctx (fetch_cmd tmpDir url) w1 = ((out, Some e), w2) →
  sync host r ctx k repository w =
  ((kustomizev1.KustomizationNotReady k ArtifactFailedReason
      ("artifact acquisition failed: " +:+ Error e),
    Some (fmt.Errorf ("artifact download `" +:+ url +:+ "` error: " +:+
                      out))),
   (os_RemoveAll host tmpDir w2).2).
Proof.
  intros (a & Ha & <- & Hu)%artifact_url_Some Hw Hf. stages.
  unfold sync. rewrite Ha, Hu. effects. by rewrite Hw, Hf.
Qed.

(** X9: when fetch and render succeed and the apply step fails, [sync] returns
    the object NotReady with ApplyFailedReason and the text of the exit
    error behind "kubectl apply error: ", returns an error that carries the
    combined output of the step, prints nothing, and removes the
    workspace. *)
Theorem sync_apply_failed (r : KustomizationReconciler)
    (ctx : context.Context) (k : kustomizev1.Kustomization)
    (repository : sourcev1.GitRepository) (w : World)
    (url tmpDir : string) (w1 : World) (out1 : string) (w2 : World)
    (out2 : string) (w3 : World) (out : string) (e : error) (w4 : World) :
  artifact_url repository = Some url →
  workspace host repository w = (inr tmpDir, w1) →
  sh host ctx (fetch_cmd tmpDir url) w1 = ((out1, None), w2) →
  sh host ctx (build_cmd tmpDir k) w2 = ((out2, None), w3) →
  sh host ctx (chosen_apply_cmd tmpDir k) w3 = ((out, Some e), w4) →
  sync host r ctx k repository w =
  ((kustomizev1.KustomizationNotReady k ApplyFailedReason
      ("kubectl apply error: " +:+ Error e),
    Some (fmt.Errorf ("kubectl apply: " +:+ out))),
   (os_RemoveAll host tmpDir w4).2).
Proof.
  intros (a & Ha & <- & Hu)%artifact_url_Some Hw Hf Hb Hp. stages.
  unfold sync. rewrite Ha, Hu. effects. rewrite Hw, Hf, Hb. cbv beta iota.
  destruct (String.eqb (kustomizev1.Prune (kustomizev1.Spec k)) "") eqn:E;
    cbn [negb]; rewrite ?E in Hp;
    destruct (exec_CombinedOutput _ _ _ _ w3) as [[o oe] w'] eqn:Hr;
    assert ((o, oe, w') = (out, Some e, w4)) as [= -> -> ->]
      by first [exact Hp | rewrite <- Hr; exact Hp];
    reflexivity.
Qed.

(** X10: when the three steps succeed, [sync] returns the object Ready with
    ApplySucceedReason and the fixed message, returns no error, prints the
    combined output of the apply step, and removes the workspace. *)
Theorem sync_succeeded (r : KustomizationReconciler)
    (ctx : context.Context) (k : kustomizev1.Kustomization)
    (repository : sourcev1.GitRepository) (w : World)
    (url tmpDir : string) (w1 : World) (out1 : string) (w2 : World)
    (out2 : string) (w3 : World) (out : string) (w4 : World) :
  artifact_url repository = Some url →
  workspace host repository w = (inr tmpDir, w1) →
  sh host ctx (fetch_cmd tmpDir url) w1 = ((out1, None), w2) →
  sh host ctx (build_cmd tmpDir k) w2 = ((out2, None), w3) →
  sh host ctx (chosen_apply_cmd tmpDir k) w3 = ((out, None), w4) →
  sync host r ctx k repository w =
  ((kustomizev1.KustomizationReady k ApplySucceedReason
      "kustomization was successfully applied", None),
   (os_RemoveAll host tmpDir (record (EvPrintln out) w4)).2).
Proof.
  intros (a & Ha & <- & Hu)%artifact_url_Some Hw Hf Hb Hp. stages.
  unfold sync. rewrite Ha, Hu. effects. rewrite Hw, Hf, Hb. cbv beta iota.
  destruct (String.eqb (kustomizev1.Prune (kustomizev1.Spec k)) "") eqn:E;
    cbn [negb]; rewrite ?E in Hp;
    destruct (exec_CombinedOutput _ _ _ _ w3) as [[o oe] w'] eqn:Hr;
    assert ((o, oe, w') = (out, None, w4)) as [= -> -> ->]
      by first [exact Hp | rewrite <- Hr; exact Hp];
    reflexivity.
Qed.

(** X11: the two results of [sync] agree: it returns no error exactly when the
    object it returns is Ready. *)
Theorem sync_no_error_iff_ready (r : KustomizationReconciler)
    (ctx : context.Context) (k : kustomizev1.Kustomization)
    (repository : sourcev1.GitRepository) (w : World) :
  (sync host r ctx k repository w).1.2 = None ↔
  kustomizev1.State <$> condition_of (sync host r ctx k repository w).1.1
  = Some kustomizev1.Ready.
Proof.
  unfold sync.
  destruct (sourcev1.Artifact_ _) as [a|]; [|done].
  destruct (String.eqb _ _); [done|].
  effects.
  destruct (ioutil_TempDir _ _ _ _) as [[e|tmpDir] w1]; [done|].
  destruct (exec_CombinedOutput _ _ _ _ w1) as [[out1 [e|]] w2]; [done|].
  destruct (exec_CombinedOutput _ _ _ _ w2) as [[out2 [e|]] w3]; [done|].
  by destruct (exec_CombinedOutput _ _ _ _ w3) as [[out3 [e|]] w4].
Qed.

(** X12: once the workspace [tmpDir] is there, the commands a sync attempt runs
    are, in this order, the fetch, the render and the apply command of that
    workspace, or the first one or two of them: at least the fetch, never a
    fourth, never one out of turn. *)
Theorem sync_commands_in_order (r : KustomizationReconciler)
    (ctx : context.Context) (k : kustomizev1.Kustomization)
    (repository : sourcev1.GitRepository) (w : World)
    (url tmpDir : string) (w1 : World) :
  artifact_url repository = Some url →
  workspace host repository w = (inr tmpDir, w1) →
  ∃ tr n,
    events (sync host r ctx k repository w).2 = events w1 ++ tr
    ∧ (1 ≤ n ≤ 3)%nat
    ∧ command_lines tr =
      take n [("/bin/sh", ["-c"; fetch_cmd tmpDir url]);
              ("/bin/sh", ["-c"; build_cmd tmpDir k]);
              ("/bin/sh", ["-c"; chosen_apply_cmd tmpDir k])].
Proof.
  intros (a & Ha & <- & Hu)%artifact_url_Some Hw. stages.
  unfold sync. rewrite Ha, Hu. effects. rewrite Hw. cbv beta iota.
  destruct (exec_CombinedOutput _ _ _ _ w1) as [[out1 [e|]] w2] eqn:H1;
    unfold exec_CombinedOutput in H1; injection H1 as _ _ <-.
  { eexists [_; _], 1%nat. cbn. rewrite <- !app_assoc. finish. }
  destruct (exec_CombinedOutput _ _ _ _ _) as [[out2 [e|]] w3] eqn:H2;
    unfold exec_CombinedOutput in H2; injection H2 as _ _ <-.
  { eexists [_; _; _; _], 2%nat. cbn. rewrite <- !app_assoc. finish. }
  destruct (String.eqb (kustomizev1.Prune (kustomizev1.Spec k)) "");
    cbn [negb];
    destruct (exec_CombinedOutput _ _ _ _ _) as [[out3 [e|]] w4] eqn:H3;
    unfold exec_CombinedOutput in H3; injection H3 as _ _ <-.
  all: first [ eexists [_; _; _; _], 3%nat; cbn; rewrite <- !app_assoc;
               finish
             | eexists [_; _; _; _; _], 3%nat; cbn; rewrite <- !app_assoc;
               finish ].
Qed.

End sync_paths.

(** ** More on the reconcile loop *)

Section reconcile_paths.
Context `{ApiConstants}.
Variable host : Host.

(** What [Reconcile] does when the load of the object fails. *)
Lemma Reconcile_object_load_failed (r : KustomizationReconciler)
    (req : ctrl.Request) (w w1 : World) (err : error) :
  let ctx :=
    context.WithTimeout context.Background (15 * time.Second)
      (host_Now host w) in
  Get_Kustomization r ctx (ctrl.NamespacedName req) w = (inl err, w1) →
  Reconcile host r req w =
  ((ctrl.Result0, IgnoreNotFound err),
   record (EvCancel ctx)
     (record (EvGetKustomization ctx (ctrl.NamespacedName req)) w)).
Proof.
  intros ctx Hk. unfold Reconcile.
  unfold mbind at 1, M_bind at 1, time_Now. cbv beta iota zeta. fold ctx.
  unfold defer, mbind, M_bind. rewrite Hk.
  unfold Get_Kustomization in Hk. by injection Hk as _ <-.
Qed.

(** X1: an object that is gone is no error: when the load of the object fails
    with a not-found error, [Reconcile] returns the zero result and no
    error, and all it has done is the load and the cancel; the source is
    not loaded, no workspace is made, no status is written. *)
Theorem Reconcile_object_not_found (r : KustomizationReconciler)
    (req : ctrl.Request) (w w1 : World) (err : error) :
  let ctx :=
    context.WithTimeout context.Background (15 * time.Second)
      (host_Now host w) in
  Get_Kustomization r ctx (ctrl.NamespacedName req) w = (inl err, w1) →
  IsNotFound err = true →
  (Reconcile host r req w).1 =
    ({| ctrl.Requeue := false; ctrl.RequeueAfter := 0 |}, None)
  ∧ events (Reconcile host r req w).2 =
    events w ++ [EvGetKustomization ctx (ctrl.NamespacedName req);
                 EvCancel ctx]
  ∧ dirs (Reconcile host r req w).2 = dirs w.
Proof.
  intros ctx Hk Hn. rewrite (Reconcile_object_load_failed _ _ _ _ _ Hk).
  unfold IgnoreNotFound. rewrite Hn. cbn. by rewrite <- app_assoc.
Qed.

(** X2: any other failure of the load of the object is handed to the caller:
    [Reconcile] returns that error with the zero result (no requeue flag,
    no delay), having done nothing but the load and the cancel. *)
Theorem Reconcile_object_load_error (r : KustomizationReconciler)
    (req : ctrl.Request) (w w1 : World) (err : error) :
  let ctx :=
    context.WithTimeout context.Background (15 * time.Second)
      (host_Now host w) in
  Get_Kustomization r ctx (ctrl.NamespacedName req) w = (inl err, w1) →
  IsNotFound err = false →
  (Reconcile host r req w).1 =
    ({| ctrl.Requeue := false; ctrl.RequeueAfter := 0 |}, Some err)
  ∧ events (Reconcile host r req w).2 =
    events w ++ [EvGetKustomization ctx (ctrl.NamespacedName req);
                 EvCancel ctx]
  ∧ dirs (Reconcile host r req w).2 = dirs w.
Proof.
  intros ctx Hk Hn. rewrite (Reconcile_object_load_failed _ _ _ _ _ Hk).
  unfold IgnoreNotFound. rewrite Hn. cbn. by rewrite <- app_assoc.
Qed.

(** The run of [Reconcile] once the object and its source are loaded and
    [sync] has returned, for either answer [u] of the status write. *)
Lemma Reconcile_after_sync (r : KustomizationReconciler)
    (req : ctrl.Request) (w w1 w2 w3 w5 : World)
    (k : kustomizev1.Kustomization) (repository : sourcev1.GitRepository)
    (k' : kustomizev1.Kustomization) (err u : option error) :
  let ctx :=
    context.WithTimeout context.Background (15 * time.Second)
      (host_Now host w) in
  let log :=
    WithValues (Log r) (kustomizev1.Kind k)
      (types.String (ctrl.NamespacedName req)) in
  Get_Kustomization r ctx (ctrl.NamespacedName req) w = (inr k, w1) →
  Get_GitRepository r ctx (repositoryName k) w1 = (inr repository, w2) →
  sync host r ctx k repository w2 = ((k', err), w3) →
  Status_Update r ctx k'
    match err with
    | Some e => (log_Error log e "Kustomization sync failed" [] w3).2
    | None => w3
    end = (u, w5) →
  Reconcile host r req w =
  match u with
  | Some e =>
    (({| ctrl.Requeue := true; ctrl.RequeueAfter := 0 |}, Some e),
     record (EvCancel ctx)
       (record (EvLogError (values log) e
                  "unable to update Kustomization status" []) w5))
  | None =>
    (({| ctrl.Requeue := false;
         ctrl.RequeueAfter := kustomizev1.Interval (kustomizev1.Spec k) |},
      None),
     record (EvCancel ctx)
       (record (EvLogInfo (values log) "Kustomization sync finished"
                  [("msg", KustomizationReadyMessage k')]) w5))
  end.
Proof.
  intros ctx log Hk Hg Hs Hu. unfold Reconcile.
  unfold mbind at 1, M_bind at 1, time_Now. cbv beta iota zeta.
  fold ctx. unfold defer, mbind, M_bind.
  rewrite Hk. fold (repositoryName k). rewrite Hg.
  unfold kustomizev1.DeepCopy. rewrite Hs.
  destruct err as [e'|]; cbn [snd] in Hu; fold log.
  - destruct (log_Error log e' _ _ w3) as [[] w4]. cbn [snd] in Hu.
    rewrite Hu. by destruct u.
  - unfold mret at 1, M_ret at 1. rewrite Hu. by destruct u.
Qed.

(** X3: when the status write fails with [e], [Reconcile] returns [e] with a
    requeue request and no delay, whatever [sync] returned, and after the
    write it only logs the failure and cancels the context. *)
Theorem Reconcile_status_write_failed (r : KustomizationReconciler)
    (req : ctrl.Request) (w w1 w2 w3 w5 : World)
    (k : kustomizev1.Kustomization) (repository : sourcev1.GitRepository)
    (k' : kustomizev1.Kustomization) (err : option error) (e : error) :
  let ctx :=
    context.WithTimeout context.Background (15 * time.Second)
      (host_Now host w) in
  let log :=
    WithValues (Log r) (kustomizev1.Kind k)
      (types.String (ctrl.NamespacedName req)) in
  Get_Kustomization r ctx (ctrl.NamespacedName req) w = (inr k, w1) →
  Get_GitRepository r ctx (repositoryName k) w1 = (inr repository, w2) →
  sync host r ctx k repository w2 = ((k', err), w3) →
  Status_Update r ctx k'
    match err with
    | Some e => (log_Error log e "Kustomization sync failed" [] w3).2
    | None => w3
    end = (Some e, w5) →
  (Reconcile host r req w).1 =
    ({| ctrl.Requeue := true; ctrl.RequeueAfter := 0 |}, Some e)
  ∧ events (Reconcile host r req w).2 =
    events w5 ++
    [EvLogError (values log) e "unable to update Kustomization status" [];
     EvCancel ctx].
Proof.
  intros ctx log Hk Hg Hs Hu.
  rewrite (Reconcile_after_sync _ _ _ _ _ _ _ _ _ _ _ _ Hk Hg Hs Hu).
  cbn. by rewrite <- app_assoc.
Qed.

(** X4: when the object and its source load, [Reconcile] writes a status
    exactly once, and what it writes is the object [sync] returned, whether
    [sync] returned an error or not and whether the write succeeds or
    not. *)
Theorem Reconcile_writes_status_once (r : KustomizationReconciler)
    (req : ctrl.Request) (w w1 w2 w3 : World)
    (k : kustomizev1.Kustomization) (repository : sourcev1.GitRepository)
    (k' : kustomizev1.Kustomization) (err : option error) :
  let ctx :=
    context.WithTimeout context.Background (15 * time.Second)
      (host_Now host w) in
  Get_Kustomization r ctx (ctrl.NamespacedName req) w = (inr k, w1) →
  Get_GitRepository r ctx (repositoryName k) w1 = (inr repository, w2) →
  sync host r ctx k repository w2 = ((k', err), w3) →
  ∃ tr, events (Reconcile host r req w).2 = events w ++ tr
        ∧ status_writes tr = [k'].
Proof.
  intros ctx Hk Hg Hs.
  destruct (sync_emits_local_effects host r ctx k repository w2)
    as (trs & Es & Fs).
  rewrite Hs in Es. cbn [snd] in Es.
  apply local_effects_write_no_status in Fs.
  destruct (Status_Update r ctx k'
              match err with
              | Some e =>
                (log_Error
                   (WithValues (Log r) (kustomizev1.Kind k)
                      (types.String (ctrl.NamespacedName req)))
                   e "Kustomization sync failed" [] w3).2
              | None => w3
              end) as [u w5] eqn:Hu.
  rewrite (Reconcile_after_sync _ _ _ _ _ _ _ _ _ _ _ _ Hk Hg Hs Hu).
  unfold Status_Update in Hu. injection Hu as _ <-.
  unfold Get_Kustomization in Hk. injection Hk as _ <-.
  unfold Get_GitRepository in Hg. injection Hg as _ <-.
  cbn [record events] in Es.
  destruct u, err; cbn; rewrite Es; cbn; rewrite <- !app_assoc;
    (eexists; split; [reflexivity|]);
    rewrite !status_writes_app, Fs; reflexivity.
Qed.

(** The three shapes of what [Reconcile] returns. *)
Lemma Reconcile_result_cases (r : KustomizationReconciler)
    (req : ctrl.Request) (w : World) :
  (∃ oe, (Reconcile host r req w).1 = (ctrl.Result0, oe))
  ∨ (∃ e, (Reconcile host r req w).1 =
          ({| ctrl.Requeue := true; ctrl.RequeueAfter := 0 |}, Some e))
  ∨ (∃ d, (Reconcile host r req w).1 =
          ({| ctrl.Requeue := false; ctrl.RequeueAfter := d |}, None)).
Proof.
  assert (∀ v, (Reconcile host r req w).1 = v →
            (∃ oe, v = (ctrl.Result0, oe))
            ∨ (∃ e, v = ({| ctrl.Requeue := true;
                            ctrl.RequeueAfter := 0 |}, Some e))
            ∨ (∃ d, v = ({| ctrl.Requeue := false;
                            ctrl.RequeueAfter := d |}, None))) as Hv;
    [|by apply Hv].
  unfold Reconcile. unfold mbind at 1, M_bind at 1, time_Now.
  cbv beta iota zeta. rewrite defer_value. unfold mbind, M_bind.
  unfold Get_Kustomization at 1.
  destruct (client_Get_Kustomization _ _ _ _) as [e|k];
    [intros v <-; left; eexists; reflexivity|].
  unfold Get_GitRepository at 1.
  destruct (client_Get_GitRepository _ _ _ _) as [e|repository].
  { intros v <-. right. left. eexists. reflexivity. }
  destruct (sync _ _ _ _ _ _) as [[k' err] w3].
  destruct err as [e'|]; cbn;
    destruct (client_Status_Update _ _ _ _) as [e|]; cbn;
    intros v <-; right; [left|right|left|right]; eexists; reflexivity.
Qed.

(** X5: the requests [Reconcile] makes of the work queue are consistent: it
    asks for an immediate requeue only together with an error and without
    a delay, and it sets a delay only when it returns no error. *)
Theorem Reconcile_requeue_consistent (r : KustomizationReconciler)
    (req : ctrl.Request) (w : World) :
  (ctrl.Requeue (Reconcile host r req w).1.1 = true →
   is_Some (Reconcile host r req w).1.2 ∧
   ctrl.RequeueAfter (Reconcile host r req w).1.1 = 0)
  ∧ (ctrl.RequeueAfter (Reconcile host r req w).1.1 ≠ 0 →
     (Reconcile host r req w).1.2 = None ∧
     ctrl.Requeue (Reconcile host r req w).1.1 = false).
Proof.
  destruct (Reconcile_result_cases r req w) as [[oe E]|[[e E]|[d E]]];
    rewrite E; cbn; (split; [intros; by eauto|done]).
Qed.

End reconcile_paths.

(** ** The properties at concrete inputs *)

#[local] Existing Instance sample_constants.

Lemma Update_generation_changed_witness :
  Update {| event.MetaOld := Some (meta "podinfo" 1 (sync_at "t1"));
            event.MetaNew := Some (meta "podinfo" 2 (sync_at "t1")) |}
  = true.
Proof.
  eapply Update_generation_changed; [reflexivity|reflexivity|].
  vm_compute. discriminate.
Defined.

Lemma Update_suppressed_witness :
  Update {| event.MetaOld := Some (meta "podinfo" 2 (sync_at "t1"));
            event.MetaNew := Some (meta "podinfo" 2 (sync_at "t1")) |}
  = false.
Proof.
  apply Update_suppressed. right. right. eexists _, _.
  split; [reflexivity|]. split; [reflexivity|]. split; [reflexivity|].
  right. reflexivity.
Defined.

Lemma sync_artifact_missing_witness :
  sync host_all_good (api_ok "") context.Background (podinfo "")
    (repo (Some {| sourcev1.URL := "" |})) busy_world
  = ((kustomizev1.KustomizationNotReady (podinfo "") "ArtifactFailed"
        "artifact not found in repo",
      Some (errors.New "artifact not found in repo")),
     busy_world).
Proof.
  refine (sync_artifact_missing host_all_good (api_ok "") context.Background
            (podinfo "") (repo (Some {| sourcev1.URL := "" |})) busy_world _).
  right. eexists. split; reflexivity.
Defined.

Lemma sync_workspace_removal_witness :
  ∃ w',
    (sync host_render_fails (api_ok "") context.Background (podinfo "")
       repo_ready busy_world).2
    = (os_RemoveAll host_render_fails tmp_podinfo w').2
    ∧ last (events (sync host_render_fails (api_ok "") context.Background
                      (podinfo "") repo_ready busy_world).2)
      = Some (EvRemoveAll tmp_podinfo)
    ∧ (host_RemoveAll host_render_fails w' tmp_podinfo = None →
       (tmp_podinfo ∉
        dirs (sync host_render_fails (api_ok "") context.Background
                (podinfo "") repo_ready busy_world).2)
       ∧ (∀ p, p ∈ dirs (sync host_render_fails (api_ok "")
                           context.Background (podinfo "") repo_ready
                           busy_world).2 →
               within tmp_podinfo p = false)).
Proof.
  epose proof (sync_workspace_removal host_render_fails (api_ok "")
                 context.Background (podinfo "") repo_ready busy_world
                 _ _ _ eq_refl eq_refl) as W.
  exact W.
Defined.

(** C4 as stated fails: on a host that refuses the removal (a read-only
    directory in the unpacked tree), an attempt that gets its workspace and
    succeeds in all three steps returns Ready and no error, its last call
    is [RemoveAll] of the workspace, and the workspace is still on the disk
    when it has returned. *)
Lemma sync_workspace_left_behind :
  (workspace host_readonly_tree repo_ready empty_world).1
  = inr tmp_podinfo
  ∧ (sync host_readonly_tree (api_ok "") context.Background (podinfo "")
       repo_ready empty_world).1
    = (kustomizev1.KustomizationReady (podinfo "") ApplySucceedReason
         "kustomization was successfully applied", None)
  ∧ last (events (sync host_readonly_tree (api_ok "") context.Background
                    (podinfo "") repo_ready empty_world).2)
    = Some (EvRemoveAll tmp_podinfo)
  ∧ dirs (sync host_readonly_tree (api_ok "") context.Background
            (podinfo "") repo_ready empty_world).2
    = [tmp_podinfo].
Proof. repeat split; vm_compute; reflexivity. Qed.

Lemma sync_render_failed_witness :
  (sync host_render_fails (api_ok "") context.Background (podinfo "")
     repo_ready empty_world).1
  = (kustomizev1.KustomizationNotReady (podinfo "") "BuildFailed"
       "kustomize build error: exit status 1",
     Some (errors.New ("kustomize build error: " +:+ build_diagnostic))).
Proof.
  erewrite (sync_render_failed host_render_fails)
    with (out := build_diagnostic) (e := exit_status_1); reflexivity.
Defined.

Lemma sync_apply_command_witness :
  ∃ cmd tail,
    events (sync host_all_good (api_ok "app=foo") context.Background
              (podinfo "app=foo") repo_ready empty_world).2
    = [EvTempDir "" "repo";
       EvCommand context.Background "/bin/sh"
         ["-c"; fetch_cmd tmp_podinfo "https://x/artifact.tar.gz"];
       EvCommand context.Background "/bin/sh"
         ["-c"; build_cmd tmp_podinfo (podinfo "app=foo")]]
      ++ EvCommand context.Background "/bin/sh" ["-c"; cmd] :: tail
    ∧ Forall (λ ev, is_command ev = false) tail
    ∧ ("app=foo" ≠ "" →
       cmd = "cd /tmp/repo976294531 && kubectl apply -f podinfo.yaml" +:+
             " --prune -l " +:+ "app=foo")
    ∧ ("app=foo" = "" →
       cmd = "cd /tmp/repo976294531 && kubectl apply -f podinfo.yaml").
Proof.
  epose proof (sync_apply_command host_all_good (api_ok "app=foo")
                 context.Background (podinfo "app=foo") repo_ready
                 empty_world _ _ _ _ _ _ _
                 eq_refl eq_refl eq_refl eq_refl) as W.
  exact W.
Defined.

Lemma Reconcile_requeue_after_interval_witness :
  (Reconcile host_render_fails (api_ok "") podinfo_request empty_world).1
  = ({| ctrl.Requeue := false; ctrl.RequeueAfter := 300000000000 |}, None).
Proof.
  epose proof (Reconcile_requeue_after_interval host_render_fails
                 (api_ok "") podinfo_request empty_world _ _ _ _ _ _ _ _
                 eq_refl eq_refl eq_refl eq_refl) as W.
  exact W.
Defined.

Lemma Reconcile_source_load_failed_witness :
  (Reconcile host_all_good api_source_gone podinfo_request busy_world).1
  = ({| ctrl.Requeue := true; ctrl.RequeueAfter := 0 |}, Some source_gone)
  ∧ (∃ tr, events (Reconcile host_all_good api_source_gone podinfo_request
                     busy_world).2 = events busy_world ++ tr ∧
           Forall (λ ev, is_status_update ev = false) tr)
  ∧ dirs (Reconcile host_all_good api_source_gone podinfo_request
            busy_world).2 = dirs busy_world.
Proof.
  epose proof (Reconcile_source_load_failed host_all_good api_source_gone
                 podinfo_request busy_world _ _ _ _ eq_refl eq_refl) as W.
  exact W.
Defined.

(** C1 as stated fails: an attempt that ends at the artifact check and an
    attempt that ends in the fetch step leave the same reason on the
    object, so the reason does not tell the two stages apart. *)
Lemma sync_reason_shared_by_two_stages :
  failed_stage (attempt_result host_fetch_fails context.Background
                  (podinfo "") (repo None) empty_world) = Some Resolve
  ∧ failed_stage (attempt_result host_fetch_fails context.Background
                    (podinfo "") repo_ready empty_world) = Some Fetch
  ∧ kustomizev1.Reason <$>
      condition_of (sync host_fetch_fails (api_ok "") context.Background
                      (podinfo "") (repo None) empty_world).1.1
    = Some ArtifactFailedReason
  ∧ kustomizev1.Reason <$>
      condition_of (sync host_fetch_fails (api_ok "") context.Background
                      (podinfo "") repo_ready empty_world).1.1
    = Some ArtifactFailedReason.
Proof. repeat split; vm_compute; reflexivity. Qed.

(** C5 as stated fails: the render step exits non-zero with the diagnostic
    [build_diagnostic] on its combined output; the object comes back
    NotReady with the build-failed reason, but its message is the text of
    the exit error and does not contain the diagnostic, which goes to
    standard output and into the returned error instead. *)
Lemma sync_render_message_lacks_output :
  sh host_render_fails context.Background
    (build_cmd tmp_podinfo (podinfo ""))
    {| dirs := [tmp_podinfo];
       events := [EvTempDir "" "repo";
                  EvCommand context.Background "/bin/sh"
                    ["-c"; fetch_cmd tmp_podinfo
                             "https://x/artifact.tar.gz"]] |}
  = ((build_diagnostic, Some exit_status_1),
     {| dirs := [tmp_podinfo];
        events := [EvTempDir "" "repo";
                   EvCommand context.Background "/bin/sh"
                     ["-c"; fetch_cmd tmp_podinfo
                              "https://x/artifact.tar.gz"];
                   EvCommand context.Background "/bin/sh"
                     ["-c"; build_cmd tmp_podinfo (podinfo "")]] |})
  ∧ condition_of (sync host_render_fails (api_ok "") context.Background
                    (podinfo "") repo_ready empty_world).1.1
    = Some {| kustomizev1.State := kustomizev1.NotReady;
              kustomizev1.Reason := BuildFailedReason;
              kustomizev1.Message := "kustomize build error: exit status 1" |}
  ∧ strings.Contains "kustomize build error: exit status 1" build_diagnostic
    = false.
Proof. repeat split; vm_compute; reflexivity. Qed.

Lemma Update_sync_at_changed_witness :
  Update {| event.MetaOld := Some (meta "podinfo" 2 ∅);
            event.MetaNew := Some (meta "podinfo" 2 (sync_at "t1")) |}
  = true.
Proof.
  eapply Update_sync_at_changed with (val := "t1");
    [reflexivity|reflexivity|reflexivity|].
  vm_compute. discriminate.
Defined.

Lemma Update_reads_generation_and_sync_at_witness :
  Update {| event.MetaOld := Some (meta "podinfo" 3 (sync_at "t1"));
            event.MetaNew :=
              Some (meta "podinfo" 3 (<["owner" := "dev"]> (sync_at "t2"))) |}
  = Update {| event.MetaOld := Some (meta "backend" 3 (sync_at "t1"));
              event.MetaNew := Some (meta "backend" 3 (sync_at "t2")) |}.
Proof.
  eapply Update_reads_generation_and_sync_at; reflexivity.
Defined.

Lemma sync_workspace_failed_witness :
  sync host_no_workspace (api_ok "") context.Background (podinfo "")
    repo_ready busy_world
  = ((kustomizev1.KustomizationNotReady (podinfo "") "StorageOperationFailed"
        "tmp dir error: mkdir /tmp/repo: no space left",
      Some (fmt.Errorf_w "tmp dir error: " no_space)),
     record (EvTempDir "" "repo") busy_world).
Proof.
  epose proof (sync_workspace_failed host_no_workspace (api_ok "")
                 context.Background (podinfo "") repo_ready busy_world
                 _ _ _ eq_refl eq_refl) as W.
  exact W.
Defined.

Lemma sync_fetch_failed_witness :
  (sync host_fetch_fails (api_ok "") context.Background (podinfo "")
     repo_ready empty_world).1
  = (kustomizev1.KustomizationNotReady (podinfo "") "ArtifactFailed"
       "artifact acquisition failed: exit status 1",
     Some (errors.New ("artifact download `https://x/artifact.tar.gz` error: "
                       +:+ fetch_diagnostic))).
Proof.
  epose proof (sync_fetch_failed host_fetch_fails (api_ok "")
                 context.Background (podinfo "") repo_ready empty_world
                 _ _ _ _ _ _ eq_refl eq_refl eq_refl) as W.
  exact (f_equal fst W).
Defined.

Lemma sync_apply_failed_witness :
  (sync host_apply_fails (api_ok "app=foo") context.Background
     (podinfo "app=foo") repo_ready empty_world).1
  = (kustomizev1.KustomizationNotReady (podinfo "app=foo") "ApplyFailed"
       "kubectl apply error: exit status 1",
     Some (errors.New ("kubectl apply: " +:+ apply_diagnostic))).
Proof.
  epose proof (sync_apply_failed host_apply_fails (api_ok "app=foo")
                 context.Background (podinfo "app=foo") repo_ready
                 empty_world _ _ _ _ _ _ _ _ _ _
                 eq_refl eq_refl eq_refl eq_refl eq_refl) as W.
  exact (f_equal fst W).
Defined.

Lemma sync_succeeded_witness :
  (sync host_all_good (api_ok "") context.Background (podinfo "")
     repo_ready empty_world).1
  = (kustomizev1.KustomizationReady (podinfo "") "ApplySucceed"
       "kustomization was successfully applied", None).
Proof.
  epose proof (sync_succeeded host_all_good (api_ok "")
                 context.Background (podinfo "") repo_ready empty_world
                 _ _ _ _ _ _ _ _ _
                 eq_refl eq_refl eq_refl eq_refl eq_refl) as W.
  exact (f_equal fst W).
Defined.

Lemma sync_commands_in_order_witness :
  ∃ tr n,
    events (sync host_render_fails (api_ok "") context.Background
              (podinfo "") repo_ready empty_world).2
    = [EvTempDir "" "repo"] ++ tr
    ∧ (1 ≤ n ≤ 3)%nat
    ∧ command_lines tr =
      take n [("/bin/sh",
               ["-c"; fetch_cmd tmp_podinfo "https://x/artifact.tar.gz"]);
              ("/bin/sh", ["-c"; build_cmd tmp_podinfo (podinfo "")]);
              ("/bin/sh", ["-c"; chosen_apply_cmd tmp_podinfo (podinfo "")])].
Proof.
  epose proof (sync_commands_in_order host_render_fails (api_ok "")
                 context.Background (podinfo "") repo_ready empty_world
                 _ _ _ eq_refl eq_refl) as W.
  exact W.
Defined.

Lemma Reconcile_object_not_found_witness :
  (Reconcile host_all_good api_object_gone podinfo_request busy_world).1
  = ({| ctrl.Requeue := false; ctrl.RequeueAfter := 0 |}, None)
  ∧ events (Reconcile host_all_good api_object_gone podinfo_request
              busy_world).2
    = events busy_world ++
      [EvGetKustomization
         (context.WithTimeout context.Background (15 * time.Second) 1000)
         (ctrl.NamespacedName podinfo_request);
       EvCancel
         (context.WithTimeout context.Background (15 * time.Second) 1000)]
  ∧ dirs (Reconcile host_all_good api_object_gone podinfo_request
            busy_world).2 = dirs busy_world.
Proof.
  epose proof (Reconcile_object_not_found host_all_good api_object_gone
                 podinfo_request busy_world _ _ eq_refl eq_refl) as W.
  exact W.
Defined.

Lemma Reconcile_object_load_error_witness :
  (Reconcile host_all_good api_object_unreadable podinfo_request
     busy_world).1
  = ({| ctrl.Requeue := false; ctrl.RequeueAfter := 0 |},
     Some server_timeout).
Proof.
  epose proof (Reconcile_object_load_error host_all_good
                 api_object_unreadable podinfo_request busy_world _ _
                 eq_refl eq_refl) as W.
  exact (proj1 W).
Defined.

Lemma Reconcile_status_write_failed_witness :
  (Reconcile host_all_good api_write_conflict podinfo_request
     empty_world).1
  = ({| ctrl.Requeue := true; ctrl.RequeueAfter := 0 |},
     Some write_conflict).
Proof.
  epose proof (Reconcile_status_write_failed host_all_good
                 api_write_conflict podinfo_request empty_world
                 _ _ _ _ _ _ _ _ _ eq_refl eq_refl eq_refl eq_refl) as W.
  exact (proj1 W).
Defined.

Lemma Reconcile_writes_status_once_witness :
  ∃ tr,
    events (Reconcile host_render_fails (api_ok "") podinfo_request
              empty_world).2 = events empty_world ++ tr
    ∧ status_writes tr =
      [kustomizev1.KustomizationNotReady (podinfo "") "BuildFailed"
         "kustomize build error: exit status 1"].
Proof.
  epose proof (Reconcile_writes_status_once host_render_fails (api_ok "")
                 podinfo_request empty_world _ _ _ _ _ _ _
                 eq_refl eq_refl eq_refl) as W.
  exact W.
Defined.
